(** * Layered credential resolution and provider presets

    A shallow embedding of [providers.py] and [profile.py] of the
    ComfyUI cloud-storage nodes, with the properties of the provider
    registry, of endpoint derivation, of the three-layer profile
    resolution and of configuration validation. *)

From Stdlib Require Import ZArith String Ascii List.
From Stdlib Require Import Floats.SpecFloat.
From Stdlib Require Import DecimalString DecimalZ.
From stdpp Require Import base option gmap strings list fin_maps.

Local Open Scope string_scope.
Set Warnings "-register-all".

(** ** Python values and exceptions *)

Module Py.

(** What [json.load] can produce, which is also what a configuration
    dict can hold: [None], booleans, integers, floats, strings, lists
    and dicts with string keys. *)
Inductive pyval : Type :=
  | PNone
  | PBool (b : bool)
  | PInt (z : Z)
  | PFloat (f : spec_float)
  | PStr (s : string)
  | PList (l : list pyval)
  | PDict (m : gmap string pyval).

(** [len(s) != 0] on strings, the test behind [if s:] and [s or t]. *)
Definition nonempty (s : string) : bool :=
  match s with
  | EmptyString => false
  | String _ _ => true
  end.

(** Python truth value of an object, as tested by [if v] and [not v]. *)
Definition truthy (v : pyval) : bool :=
  match v with
  | PNone => false
  | PBool b => b
  | PInt z => negb (Z.eqb z 0)
  | PFloat f => match f with S754_zero _ => false | _ => true end
  | PStr s => nonempty s
  | PList l => match l with [] => false | _ :: _ => true end
  | PDict m => negb (bool_decide (dom m = ∅))
  end.

(** [a or b] on strings. *)
Definition py_or (a b : string) : string :=
  if nonempty a then a else b.

(** The exceptions the embedded code can raise.  [OutsideModel] is not
    a Python exception: it marks the [str.format] constructs
    (conversions, format specs, attribute and index access) that the
    embedding of [str.format] below does not follow. *)
Inductive exn : Type :=
  | ValueError (msg : string)
  | KeyError (key : string)
  | IndexError (msg : string)
  | AttributeError (msg : string)
  | OSError (msg : string)
  | JSONDecodeError (msg : string)
  | UnicodeDecodeError (msg : string)
  | RecursionError (msg : string)
  | OutsideModel.

(** [str(e)] *)
Definition exn_text (e : exn) : string :=
  match e with
  | ValueError msg | IndexError msg | AttributeError msg
  | OSError msg | JSONDecodeError msg
  | UnicodeDecodeError msg | RecursionError msg => msg
  | KeyError key => "'" ++ key ++ "'"
  | OutsideModel => ""
  end.

(** A call either returns or raises. *)
Inductive res (A : Type) : Type :=
  | Ok (a : A)
  | Raise (e : exn).
Arguments Ok {A} a.
Arguments Raise {A} e.

Definition res_bind {A B} (m : res A) (k : A → res B) : res B :=
  match m with
  | Ok a => k a
  | Raise e => Raise e
  end.

Definition res_map {A B} (f : A → B) (m : res A) : res B :=
  res_bind m (λ a, Ok (f a)).

(** [type(v).__name__] *)
Definition type_name (v : pyval) : string :=
  match v with
  | PNone => "NoneType"
  | PBool _ => "bool"
  | PInt _ => "int"
  | PFloat _ => "float"
  | PStr _ => "str"
  | PList _ => "list"
  | PDict _ => "dict"
  end.

(** What [v.attr] raises when [v] has no such attribute. *)
Definition no_attribute (v : pyval) (attr : string) : exn :=
  AttributeError ("'" ++ type_name v ++ "' object has no attribute '" ++ attr ++ "'").

(** [obj.get(key, default)]: only a dict has [get]. *)
Definition py_get (obj : pyval) (key : string) (default : pyval) : res pyval :=
  match obj with
  | PDict m => Ok (match m !! key with Some v => v | None => default end)
  | _ => Raise (no_attribute obj "get")
  end.

(** [obj.items()]: only a dict has [items]. *)
Definition py_items (obj : pyval) : res (gmap string pyval) :=
  match obj with
  | PDict m => Ok m
  | _ => Raise (no_attribute obj "items")
  end.

(** [os.path.join(a, b)] of [posixpath]. *)
Fixpoint ends_with_slash (s : string) : bool :=
  match s with
  | EmptyString => false
  | String c EmptyString => Ascii.eqb c "/"
  | String _ rest => ends_with_slash rest
  end.

Definition os_path_join (a b : string) : string :=
  if String.prefix "/" b then b
  else if negb (nonempty a) || ends_with_slash a then a ++ b
  else a ++ "/" ++ b.

(** [needle in haystack] on strings. *)
Fixpoint contains (needle haystack : string) : bool :=
  String.prefix needle haystack ||
  match haystack with
  | EmptyString => false
  | String _ rest => contains needle rest
  end.

(** An insertion-ordered dict as a list of items; keys are unique in
    every dict literal embedded below. *)
Fixpoint dict_get {V} (d : list (string * V)) (key : string) : option V :=
  match d with
  | [] => None
  | (k, v) :: d' => if String.eqb k key then Some v else dict_get d' key
  end.

(** [d[key]], which raises [KeyError] on a missing key. *)
Definition dict_getitem {V} (d : list (string * V)) (key : string) : res V :=
  match dict_get d key with
  | Some v => Ok v
  | None => Raise (KeyError key)
  end.

(** [d.get(key, default)]. *)
Definition dict_get_default {V} (d : list (string * V)) (key : string) (default : V) : V :=
  match dict_get d key with
  | Some v => v
  | None => default
  end.

(** *** [str.format] with keyword arguments only

    The scanner of [template.format] called with string-valued
    keyword arguments only: literal text, the escapes [{{] and [}}], and
    replacement fields [{name}].  A field whose name is empty or a
    number asks for a positional argument, and none is passed. *)
Inductive scan : Type :=
  | InText
  | AfterOpen
  | InField (name : string)
  | AfterClose.

Definition is_digit (c : ascii) : bool :=
  let n := nat_of_ascii c in (48 <=? n)%nat && (n <=? 57)%nat.

Fixpoint all_digits (s : string) : bool :=
  match s with
  | EmptyString => true
  | String c s' => is_digit c && all_digits s'
  end.

Definition field_value (kwargs : list (string * string)) (name : string) : res string :=
  if all_digits name then
    Raise (IndexError "Replacement index out of range for positional args tuple")
  else
    dict_getitem kwargs name.

Definition outside_fragment (c : ascii) : bool :=
  Ascii.eqb c "!" || Ascii.eqb c ":" || Ascii.eqb c "." || Ascii.eqb c "[".

Fixpoint format_from (st : scan) (template : string) (kwargs : list (string * string))
  : res string :=
  match template with
  | EmptyString =>
      match st with
      | InText => Ok ""
      | AfterOpen => Raise (ValueError "Single '{' encountered in format string")
      | InField _ => Raise (ValueError "expected '}' before end of string")
      | AfterClose => Raise (ValueError "Single '}' encountered in format string")
      end
  | String c rest =>
      match st with
      | InText =>
          if Ascii.eqb c "{" then format_from AfterOpen rest kwargs
          else if Ascii.eqb c "}" then format_from AfterClose rest kwargs
          else res_map (String c) (format_from InText rest kwargs)
      | AfterOpen =>
          if Ascii.eqb c "{" then res_map (String "{") (format_from InText rest kwargs)
          else if Ascii.eqb c "}" then
            res_bind (field_value kwargs "") (λ v,
              res_map (String.append v) (format_from InText rest kwargs))
          else if outside_fragment c then Raise OutsideModel
          else format_from (InField (String c "")) rest kwargs
      | InField name =>
          if Ascii.eqb c "}" then
            res_bind (field_value kwargs name) (λ v,
              res_map (String.append v) (format_from InText rest kwargs))
          else if Ascii.eqb c "{" then
            Raise (ValueError "unexpected '{' in field name")
          else if outside_fragment c then Raise OutsideModel
          else format_from (InField (name ++ String c "")) rest kwargs
      | AfterClose =>
          if Ascii.eqb c "}" then res_map (String "}") (format_from InText rest kwargs)
          else Raise (ValueError "Single '}' encountered in format string")
      end
  end.

Definition str_format (template : string) (kwargs : list (string * string)) : res string :=
  format_from InText template kwargs.

End Py.

Import Py.

(** ** providers.py *)

Module Providers.

Record ProviderPreset : Type := {
  endpoint_template : string;
  default_region : string;
  force_path_style : bool;
}.

Definition PROVIDERS : list (string * ProviderPreset) := [
  ("AWS S3",
    {| endpoint_template := "";
       default_region := "us-east-1";
       force_path_style := false |});
  ("Backblaze B2",
    {| endpoint_template := "https://s3.{region}.backblazeb2.com";
       default_region := "us-west-004";
       force_path_style := false |});
  ("Cloudflare R2",
    {| endpoint_template := "https://{account_id}.r2.cloudflarestorage.com";
       default_region := "auto";
       force_path_style := false |});
  ("MinIO",
    {| endpoint_template := "http://localhost:9000";
       default_region := "us-east-1";
       force_path_style := true |});
  ("Wasabi",
    {| endpoint_template := "https://s3.{region}.wasabisys.com";
       default_region := "us-east-1";
       force_path_style := false |});
  ("DigitalOcean Spaces",
    {| endpoint_template := "https://{region}.digitaloceanspaces.com";
       default_region := "nyc3";
       force_path_style := false |});
  ("GCS (S3 interop)",
    {| endpoint_template := "https://storage.googleapis.com";
       default_region := "auto";
       force_path_style := false |});
  ("Custom",
    {| endpoint_template := "";
       default_region := "";
       force_path_style := false |})
].

Definition PROVIDER_NAMES : list string := map fst PROVIDERS.

(** [preset = PROVIDERS.get(provider, PROVIDERS["Custom"])]: the
    default is evaluated before the lookup. *)
Definition lookup_preset (provider : string) : res ProviderPreset :=
  res_bind (dict_getitem PROVIDERS "Custom") (λ custom,
    Ok (dict_get_default PROVIDERS provider custom)).

(** [effective_region = region or preset.default_region] *)
Definition effective_region (preset : ProviderPreset) (region : string) : string :=
  py_or region (default_region preset).

(** The [if endpoint_url: ... elif preset.endpoint_template: ... else:]
    block that assigns [effective_endpoint]. *)
Definition effective_endpoint (preset : ProviderPreset)
    (endpoint_url region account_id : string) : res string :=
  if nonempty endpoint_url then Ok endpoint_url
  else if nonempty (endpoint_template preset) then
    str_format (endpoint_template preset)
      [("region", effective_region preset region); ("account_id", account_id)]
  else Ok "".

(** The keyword arguments [kwargs] handed to [boto3.client];
    [endpoint_url] is [None] when the key is not put into [kwargs]. *)
Record client_kwargs : Type := {
  aws_access_key_id : string;
  aws_secret_access_key : string;
  region_name : string;
  signature_version : string;
  addressing_style : string;
  retries_max_attempts : Z;
  retries_mode : string;
  user_agent_extra : string;
  endpoint_url : option string;
}.

Definition create_s3_client
    (provider access_key secret_key region endpoint_url account_id : string)
  : res client_kwargs :=
  res_bind (lookup_preset provider) (λ preset,
  res_bind (effective_endpoint preset endpoint_url region account_id) (λ endpoint,
    Ok {| aws_access_key_id := access_key;
          aws_secret_access_key := secret_key;
          region_name := effective_region preset region;
          signature_version := "s3v4";
          addressing_style := if force_path_style preset then "path" else "auto";
          retries_max_attempts := 3;
          retries_mode := "adaptive";
          user_agent_extra := "b2ai-comfyui";
          endpoint_url := if nonempty endpoint then Some endpoint else None |})).

(** [create_s3_client] whole, from the two imports it starts with to
    the call it ends in.  [library] is what importing boto3 and
    botocore gives: the exception of a failed import, or what
    [boto3.client] returns or raises on the arguments built. *)
Definition create_s3_client_call {C} (library : res (client_kwargs → res C))
    (provider access_key secret_key region endpoint_url account_id : string) : res C :=
  res_bind library (λ boto3_client,
  res_bind (create_s3_client provider access_key secret_key region endpoint_url account_id)
    boto3_client).

(** The words of the endpoint contract: the template read left to
    right, every occurrence of the placeholder [{region}] replaced by
    the region and every occurrence of [{account_id}] by the account
    id, all other text kept. *)
Fixpoint substitute_from (skip : nat) (template region account_id : string) : string :=
  match template with
  | EmptyString => ""
  | String c rest =>
      match skip with
      | S n => substitute_from n rest region account_id
      | O =>
          if String.prefix "{region}" template then
            region ++ substitute_from 7 rest region account_id
          else if String.prefix "{account_id}" template then
            account_id ++ substitute_from 11 rest region account_id
          else String c (substitute_from 0 rest region account_id)
      end
  end.

Definition substitute_placeholders (template region account_id : string) : string :=
  substitute_from 0 template region account_id.

(** Templates made of brace-free text and the two placeholders only. *)
Inductive only_placeholders : string → Prop :=
  | op_end : only_placeholders ""
  | op_text c rest :
      c ≠ "{"%char → c ≠ "}"%char →
      only_placeholders rest → only_placeholders (String c rest)
  | op_region rest :
      only_placeholders rest → only_placeholders ("{region}" ++ rest)
  | op_account_id rest :
      only_placeholders rest → only_placeholders ("{account_id}" ++ rest).

(** The preset every unknown provider name falls back to. *)
Definition custom_preset : ProviderPreset :=
  {| endpoint_template := ""; default_region := ""; force_path_style := false |}.

End Providers.

Import Providers.

(** ** profile.py *)

Module Profile.

(** The profiles file as a call finds it. *)
Inductive file_state : Type :=
  | Missing                       (* [os.path.exists(path)] is false *)
  | Unreadable (err : string)     (* [open] or the read raises [OSError] *)
  | Malformed (err : string)      (* [json.load] raises [JSONDecodeError] *)
  | Fails (e : exn)               (* the read or [json.load] raises [e], any
                                     other exception: [UnicodeDecodeError] on
                                     bytes that are not text, [RecursionError]
                                     on nesting too deep, [ValueError] on an
                                     integer of too many digits *)
  | Parsed (data : pyval).        (* [json.load] returns [data] *)

(** What a call can observe of the process and the file system:
    [os.environ]; what [folder_paths.get_system_user_directory]
    returns for "cloud_storage", [None] when the import or the call
    raises; what [os.path.expanduser] makes of "~"; and the state of
    the file at the profiles path. *)
Record snapshot : Type := {
  environ : gmap string string;
  system_user_directory : option string;
  home : string;
  profiles_file : file_state;
}.

(** What a call leaves behind besides its result. *)
Inductive event : Type :=
  | FileAccess (path : string)
  | LogWarning (msg : string).

(** A computation reads the snapshot, emits events in order, and
    returns or raises. *)
Definition M (A : Type) : Type := snapshot → list event * res A.

Definition ret {A} (a : A) : M A := λ _, ([], Ok a).

Definition bind {A B} (m : M A) (k : A → M B) : M B := λ w,
  match m w with
  | (t, Ok a) => let '(t', r) := k a w in ((t ++ t')%list, r)
  | (t, Raise e) => (t, Raise e)
  end.

#[export] Instance M_ret : MRet M := @ret.
#[export] Instance M_bind : MBind M := λ A B k m, bind m k.

Definition lift {A} (r : res A) : M A := λ _, ([], r).

(** [try: body except <caught> as e: handler(e)] *)
Definition try_except {A} (body : M A) (caught : exn → bool) (handler : exn → M A) : M A :=
  λ w,
  match body w with
  | (t, Raise e) =>
      if caught e then let '(t', r) := handler e w in ((t ++ t')%list, r)
      else (t, Raise e)
  | returned => returned
  end.

(** The result and the events of a run. *)
Definition value {A} (m : M A) (w : snapshot) : res A := (m w).2.
Definition events {A} (m : M A) (w : snapshot) : list event := (m w).1.

(** [os.environ.get(name, default)] *)
Definition os_environ_get (name default : string) : M string := λ w,
  ([], Ok (match environ w !! name with Some v => v | None => default end)).

(** [os.path.exists(path)], for the profiles path. *)
Definition os_path_exists (path : string) : M bool := λ w,
  ([FileAccess path],
   Ok (match profiles_file w with Missing => false | _ => true end)).

(** [with open(path, "r") as f: data = json.load(f)], for the
    profiles path. *)
Definition json_load (path : string) : M pyval := λ w,
  ([],
   match profiles_file w with
   | Missing => Raise (OSError "No such file or directory")
   | Unreadable err => Raise (OSError err)
   | Malformed err => Raise (JSONDecodeError err)
   | Fails e => Raise e
   | Parsed data => Ok data
   end).

(** [logger.warning(...)], with the message already formatted. *)
Definition logger_warning (msg : string) : M unit := λ _, ([LogWarning msg], Ok tt).

(** [for x in items: state = body(state, x)] *)
Fixpoint for_each {A S} (items : list A) (body : S → A → M S) (state : S) : M S :=
  match items with
  | [] => mret state
  | x :: rest => state' ← body state x; for_each rest body state'
  end.

(** [{k: v for k, v in d.items() if v}] *)
Definition truthy_items (d : gmap string pyval) : gmap string pyval :=
  filter (λ kv, truthy kv.2 = true) d.

(** [config.update(other)]: the items of [other] win. *)
Definition dict_update (config other : gmap string pyval) : gmap string pyval :=
  other ∪ config.

Definition ENV_PREFIX : string := "COMFY_S3_".

Definition ENV_KEYS : list (string * string) := [
  ("PROVIDER", "provider");
  ("ACCESS_KEY", "access_key");
  ("SECRET_KEY", "secret_key");
  ("REGION", "region");
  ("BUCKET", "bucket");
  ("ENDPOINT_URL", "endpoint_url");
  ("ACCOUNT_ID", "account_id");
  ("PATH_PREFIX", "path_prefix")
].

Definition _get_profiles_path : M string := λ w,
  ([],
   Ok (match system_user_directory w with
       | Some sys_dir => os_path_join sys_dir "profiles.json"
       | None =>
           os_path_join (os_path_join (home w) ".comfyui-cloud-storage") "profiles.json"
       end)).

Definition _load_profiles : M pyval :=
  path ← _get_profiles_path;
  found ← os_path_exists path;
  if negb found then mret (PDict ∅)
  else
    try_except
      (data ← json_load path;
       lift (py_get data "profiles" (PDict ∅)))
      (λ e, match e with JSONDecodeError _ | OSError _ => true | _ => false end)
      (λ e,
         logger_warning ("Failed to load cloud storage profiles from "
                         ++ path ++ ": " ++ exn_text e);;
         mret (PDict ∅)).

Definition _profile_from_env : M (gmap string pyval) :=
  for_each ENV_KEYS (λ profile '(env_suffix, key),
    val ← os_environ_get (ENV_PREFIX ++ env_suffix) "";
    if nonempty val then mret (<[key := PStr val]> profile) else mret profile) ∅.

(** The dict literal that [resolve_profile] starts from. *)
Definition initial_config : gmap string pyval :=
  <["path_prefix" := PStr ""]> (
  <["account_id" := PStr ""]> (
  <["endpoint_url" := PStr ""]> (
  <["bucket" := PStr ""]> (
  <["region" := PStr ""]> (
  <["secret_key" := PStr ""]> (
  <["access_key" := PStr ""]> (
  <["provider" := PStr "AWS S3"]> ∅))))))).

(** [resolve_profile] is embedded block by block.  First the
    statements under "Start with env vars", up to and including
    [config.update] with the environment. *)
Definition env_layer : M (gmap string pyval) :=
  let config := initial_config in
  from_env ← _profile_from_env;
  mret (dict_update config (truthy_items from_env)).

(** The statements under "Overlay named profile". *)
Definition named_layer (profile_name : string) (config : gmap string pyval)
  : M (gmap string pyval) :=
  if nonempty profile_name && negb (String.eqb profile_name "(env vars)") then
    profiles ← _load_profiles;
    named ← lift (py_get profiles profile_name (PDict ∅));
    if negb (truthy named) then
      logger_warning ("Cloud storage profile '" ++ profile_name ++ "' not found");;
      mret config
    else
      items ← lift (py_items named);
      mret (dict_update config (truthy_items items))
  else mret config.

(** The statements under "Overlay per-node widget overrides". *)
Definition override_layer (provider_override bucket_override path_prefix_override : string)
    (config : gmap string pyval) : gmap string pyval :=
  let config :=
    if nonempty provider_override && negb (String.eqb provider_override "(from profile)")
    then <["provider" := PStr provider_override]> config else config in
  let config :=
    if nonempty bucket_override
    then <["bucket" := PStr bucket_override]> config else config in
  let config :=
    if nonempty path_prefix_override
    then <["path_prefix" := PStr path_prefix_override]> config else config in
  config.

Definition resolve_profile
    (profile_name provider_override bucket_override path_prefix_override : string)
  : M (gmap string pyval) :=
  config ← env_layer;
  config ← named_layer profile_name config;
  mret (override_layer provider_override bucket_override path_prefix_override config).

Definition resolve_default_profile : M (gmap string pyval) :=
  resolve_profile "(env vars)" "" "" "".

(** [config.get(key)], [None] when the key is missing. *)
Definition config_get (config : gmap string pyval) (key : string) : pyval :=
  match config !! key with Some v => v | None => PNone end.

Definition access_key_message (path : string) : string :=
  "Cloud storage access key not configured. " ++
  "Set COMFY_S3_ACCESS_KEY env var, create a profile in " ++
  path ++ ", or connect a CloudStorageProfile node.".

Definition secret_key_message : string :=
  "Cloud storage secret key not configured. " ++
  "Set COMFY_S3_SECRET_KEY env var or configure a profile.".

Definition bucket_message : string :=
  "Cloud storage bucket not configured. " ++
  "Set COMFY_S3_BUCKET env var or configure a profile.".

Definition validate_config (config : gmap string pyval) : M unit :=
  if negb (truthy (config_get config "access_key")) then
    path ← _get_profiles_path;
    lift (Raise (ValueError (access_key_message path)))
  else if negb (truthy (config_get config "secret_key")) then
    lift (Raise (ValueError secret_key_message))
  else if negb (truthy (config_get config "bucket")) then
    lift (Raise (ValueError bucket_message))
  else mret tt.

(** *** Vocabulary of the statements below *)

(** The configuration [resolve_profile] holds after its first two
    blocks, before the per-node overrides. *)
Definition after_profile_layer (profile_name : string) : M (gmap string pyval) :=
  config ← env_layer;
  named_layer profile_name config.

(** The snapshot holds the profile store [store]: [_load_profiles]
    returns it. *)
Definition holds_store (w : snapshot) (store : gmap string pyval) : Prop :=
  value _load_profiles w = Ok (PDict store).

(** The path in the snapshot, as [_get_profiles_path] computes it. *)
Definition profiles_path (w : snapshot) : string :=
  match value _get_profiles_path w with
  | Ok path => path
  | Raise _ => ""
  end.

(** The dict [_profile_from_env] builds, as a function of [os.environ]. *)
Definition env_step (env : gmap string string) (profile : gmap string pyval)
    (item : string * string) : gmap string pyval :=
  let val := match env !! (ENV_PREFIX ++ item.1) with Some v => v | None => "" end in
  if nonempty val then <[item.2 := PStr val]> profile else profile.

Definition from_environ (env : gmap string string) : gmap string pyval :=
  foldl (env_step env) ∅ ENV_KEYS.

(** The configuration after the environment layer, as a function of
    [os.environ]. *)
Definition env_config (env : gmap string string) : gmap string pyval :=
  dict_update initial_config (truthy_items (from_environ env)).

(** Whether [resolve_profile] consults the store for this name. *)
Definition selects_profile (profile_name : string) : bool :=
  nonempty profile_name && negb (String.eqb profile_name "(env vars)").

(** The keys of the dict [resolve_profile] documents as its result. *)
Definition CONFIG_FIELDS : list string :=
  ["provider"; "access_key"; "secret_key"; "region"; "bucket";
   "endpoint_url"; "account_id"; "path_prefix"].

(** Whether a per-node override assigns the field [key]. *)
Definition overridden (provider_override bucket_override path_prefix_override key : string)
  : bool :=
  (String.eqb key "provider" && nonempty provider_override
     && negb (String.eqb provider_override "(from profile)"))
  || (String.eqb key "bucket" && nonempty bucket_override)
  || (String.eqb key "path_prefix" && nonempty path_prefix_override).

(** Where the provider of a resolved configuration can come from:
    the default of the dict literal, the environment variable, the
    selected stored profile, or the override. *)
Definition config_provenance (w : snapshot) (profile_name provider_override : string)
    (config : gmap string pyval) : Prop :=
  config !! "provider" = Some (PStr "AWS S3")
  ∨ (∃ s, environ w !! "COMFY_S3_PROVIDER" = Some s ∧ nonempty s = true
          ∧ config !! "provider" = Some (PStr s))
  ∨ (∃ store named v, selects_profile profile_name = true
          ∧ holds_store w store
          ∧ store !! profile_name = Some (PDict named)
          ∧ named !! "provider" = Some v ∧ truthy v = true
          ∧ config !! "provider" = Some v)
  ∨ (nonempty provider_override = true ∧ provider_override ≠ "(from profile)"
          ∧ config !! "provider" = Some (PStr provider_override)).

(** A field counts as empty when [config.get(key)] is false in a
    condition: the key is missing, or its value is [""], [None], zero,
    [False] or an empty container. *)
Definition field_empty (config : gmap string pyval) (key : string) : bool :=
  negb (truthy (config_get config key)).

(** Every stored profile is a JSON object. *)
Definition profiles_are_objects (store : gmap string pyval) : Prop :=
  ∀ name v, store !! name = Some v → ∃ m, v = PDict m.

(** How a message can point at the per-call input: by naming the
    profile node or by any of the words for what the node takes. *)
Definition mentions_per_call_input (msg : string) : bool :=
  contains "CloudStorageProfile" msg || contains "node" msg
  || contains "input" msg || contains "widget" msg
  || contains "override" msg || contains "per-call" msg
  || contains "argument" msg || contains "parameter" msg.

End Profile.

Import Profile.

(** ** Sample snapshots *)

Module Samples.

(** A profiles file that parses to [{"profiles": store}]. *)
Definition file_with (store : gmap string pyval) : file_state :=
  Parsed (PDict (<["profiles" := PDict store]> ∅)).

(** The environment of the resolver's tests: credentials and bucket. *)
Definition test_environ : gmap string string :=
  <["COMFY_S3_ACCESS_KEY" := "envkey"]> (
  <["COMFY_S3_SECRET_KEY" := "envsecret"]> (
  <["COMFY_S3_BUCKET" := "envbucket"]> ∅)).

(** Outside ComfyUI, no profiles file. *)
Definition env_only : snapshot :=
  {| environ := test_environ;
     system_user_directory := None;
     home := "/home/user";
     profiles_file := Missing |}.

Definition production_profile : gmap string pyval :=
  <["provider" := PStr "Backblaze B2"]> (
  <["access_key" := PStr "profilekey"]> (
  <["secret_key" := PStr "profilesecret"]> (
  <["bucket" := PStr "profilebucket"]> (
  <["region" := PStr "eu-central-003"]> ∅)))).

Definition production_store : gmap string pyval :=
  <["production" := PDict production_profile]> ∅.

Definition with_production : snapshot :=
  {| environ := test_environ;
     system_user_directory := Some "/tmp/comfyui-test/__cloud_storage";
     home := "/home/user";
     profiles_file := file_with production_store |}.

(** A profile with a bucket, an emptied region and no credentials. *)
Definition partial_profile : gmap string pyval :=
  <["bucket" := PStr "profilebucket"]> (<["region" := PStr ""]> ∅).

Definition staging_store : gmap string pyval :=
  <["staging" := PDict partial_profile]> ∅.

Definition with_partial : snapshot :=
  {| environ := <["COMFY_S3_REGION" := "us-west-004"]> test_environ;
     system_user_directory := None;
     home := "/home/user";
     profiles_file := file_with staging_store |}.

(** A profiles file whose one profile is stored under the empty
    name, a key that JSON allows. *)
Definition unnamed_store : gmap string pyval :=
  <["" := PDict partial_profile]> ∅.

Definition with_unnamed : snapshot :=
  {| environ := test_environ;
     system_user_directory := None;
     home := "/home/user";
     profiles_file := file_with unnamed_store |}.

(** An environment whose provider variable holds the text that the
    provider override uses for "inherit". *)
Definition sentinel_in_environ : snapshot :=
  {| environ := <["COMFY_S3_PROVIDER" := "(from profile)"]> test_environ;
     system_user_directory := None;
     home := "/home/user";
     profiles_file := Missing |}.

(** A stored profile whose provider is that same text. *)
Definition sentinel_in_profile : snapshot :=
  {| environ := test_environ;
     system_user_directory := None;
     home := "/home/user";
     profiles_file :=
       file_with (<["legacy" := PDict (<["provider" := PStr "(from profile)"]> ∅)]> ∅) |}.

(** A profiles file that is valid JSON but holds a list. *)
Definition list_file : snapshot :=
  {| environ := test_environ;
     system_user_directory := None;
     home := "/home/user";
     profiles_file := Parsed (PList []) |}.

(** A stored profile that is a string, not an object. *)
Definition string_profile : snapshot :=
  {| environ := test_environ;
     system_user_directory := None;
     home := "/home/user";
     profiles_file := file_with (<["broken" := PStr "oops"]> ∅) |}.

(** A profiles file that is not JSON. *)
Definition malformed_file : snapshot :=
  {| environ := test_environ;
     system_user_directory := None;
     home := "/home/user";
     profiles_file := Malformed "Expecting value: line 1 column 1 (char 0)" |}.

(** A profiles file whose bytes are not UTF-8 text. *)
Definition undecodable_file : snapshot :=
  {| environ := test_environ;
     system_user_directory := None;
     home := "/home/user";
     profiles_file :=
       Fails (UnicodeDecodeError
                "'utf-8' codec can't decode byte 0xff in position 0: invalid start byte") |}.

(** The configurations of the validation tests. *)
Definition config_of (access_key secret_key bucket : string) : gmap string pyval :=
  <["access_key" := PStr access_key]> (
  <["secret_key" := PStr secret_key]> (
  <["bucket" := PStr bucket]> ∅)).

(** The field [key] of a result, [None] when the call raised. *)
Definition field_of (r : res (gmap string pyval)) (key : string) : option pyval :=
  match r with
  | Ok config => config !! key
  | Raise _ => None
  end.

End Samples.

Import Samples.

(** ** The nodes: nodes_profile.py, nodes_save.py, nodes_load.py,
    nodes_browse.py *)

Module Nodes.

(** [CloudStorageProfile.execute]; the node's output is the
    configuration. *)
Definition CloudStorageProfile_execute (profile provider bucket path_prefix : string)
  : M (gmap string pyval) :=
  config ← resolve_profile profile provider bucket path_prefix;
  validate_config config;;
  mret config.

(** *** Python text helpers *)

(** [str(n)] for an [int]. *)
Definition str_of_int (n : Z) : string :=
  NilEmpty.string_of_int (Z.to_int n).

(** [s.replace(old, new)] for a non-empty [old]: occurrences are
    found left to right and do not overlap.  [skip] counts the
    characters of a replaced occurrence still to pass over. *)
Fixpoint replace_from (skip : nat) (old new s : string) : string :=
  match s with
  | EmptyString => ""
  | String c rest =>
      match skip with
      | S n => replace_from n old new rest
      | O =>
          if String.prefix old s
          then new ++ replace_from (String.length old - 1) old new rest
          else String c (replace_from 0 old new rest)
      end
  end.

(** How many occurrences [replace_from] replaces. *)
Fixpoint count_from (skip : nat) (old s : string) : nat :=
  match s with
  | EmptyString => 0
  | String c rest =>
      match skip with
      | S n => count_from n old rest
      | O =>
          if String.prefix old s
          then S (count_from (String.length old - 1) old rest)
          else count_from 0 old rest
      end
  end.

(** For the empty [old], Python puts [new] before every character
    and at the end. *)
Fixpoint interleave (new s : string) : string :=
  match s with
  | EmptyString => new
  | String c rest => new ++ String c (interleave new rest)
  end.

Definition str_replace (s old new : string) : string :=
  if nonempty old then replace_from 0 old new s else interleave new s.

(** The text an f-string puts for [{v}].  Floats, lists and dicts
    print through [repr], which is not followed: [None]. *)
Definition format_value (v : pyval) : option string :=
  match v with
  | PStr s => Some s
  | PNone => Some "None"
  | PBool true => Some "True"
  | PBool false => Some "False"
  | PInt n => Some (str_of_int n)
  | PFloat _ | PList _ | PDict _ => None
  end.

(** [config.get(key, default)] with a string default. *)
Definition config_get_default (config : gmap string pyval) (key default : string) : pyval :=
  match config !! key with Some v => v | None => PStr default end.

(** *** nodes_save.py *)

(** The text an f-string puts for [{v}], for every value: [text_of]
    is what [format] returns for the floats, lists and dicts that
    [format_value] does not follow. *)
Definition fstring_text (text_of : pyval → string) (v : pyval) : string :=
  match format_value v with
  | Some text => text
  | None => text_of v
  end.

Definition _build_key (text_of : pyval → string) (config : gmap string pyval)
    (prefix filename : string) (batch_idx : Z) (ext : string) : string :=
  let base_prefix := config_get_default config "path_prefix" "" in
  let name := str_replace filename "%batch_num%" (str_of_int batch_idx) in
  fstring_text text_of base_prefix ++ prefix ++ name ++ "." ++ ext.

(** An exception as the storage calls raise it: a botocore
    [ClientError] with the [Code] and [Message] of its
    [response["Error"]], or any other exception with its [str]. *)
Inductive s3_failure : Type :=
  | ClientError (code message : string)
  | OtherFailure (text : string).

Definition _s3_error_message (e : s3_failure) : string :=
  match e with
  | ClientError code msg =>
      if String.eqb code "NoSuchBucket" then
        "Bucket not found: " ++ msg
      else if String.eqb code "AccessDenied" || String.eqb code "403" then
        "Access denied. Check credentials and bucket policy. (" ++ msg ++ ")"
      else if String.eqb code "InvalidAccessKeyId" then
        "Invalid access key. (" ++ msg ++ ")"
      else "S3 error [" ++ code ++ "]: " ++ msg
  | OtherFailure text => text
  end.

(** *** Calls into the storage client *)

(** What a statement of a node can raise: an exception of profile.py
    or providers.py, the [TypeError] of a call with keyword arguments
    the callee does not take (Python names the first of them in the
    dict's order), or a failure of a storage call. *)
Inductive raised : Type :=
  | Exn (e : exn)
  | UnexpectedKeyword (callee : string) (keywords : gset string)
  | Failed (f : s3_failure).

(** A statement returns, raises, or leaves the embedding. *)
Inductive outcome (A : Type) : Type :=
  | Returned (a : A)
  | Raised (e : raised)
  | NotFollowed.
Arguments Returned {A} a.
Arguments Raised {A} e.
Arguments NotFollowed {A}.

(** What a node leaves behind: the events of profile.py, and the
    requests sent to the storage service. *)
Inductive node_event : Type :=
  | Logged (e : event)
  | Request (operation bucket key : string).

Definition N (A : Type) : Type := snapshot → list node_event * outcome A.

Definition nret {A} (a : A) : N A := λ _, ([], Returned a).

Definition nbind {A B} (m : N A) (k : A → N B) : N B := λ w,
  match m w with
  | (t, Returned a) => let '(t', r) := k a w in ((t ++ t')%list, r)
  | (t, Raised e) => (t, Raised e)
  | (t, NotFollowed) => (t, NotFollowed)
  end.

#[export] Instance N_ret : MRet N := @nret.
#[export] Instance N_bind : MBind N := λ A B k m, nbind m k.

(** A computation of profile.py, run inside a node. *)
Definition of_M {A} (m : M A) : N A := λ w,
  let '(t, r) := m w in
  (Logged <$> t,
   match r with
   | Ok a => Returned a
   | Raise e => Raised (Exn e)
   end).

Definition of_outcome {A} (o : outcome A) : N A := λ _, ([], o).

(** [try: body except Exception: handler] *)
Definition except_exception {A} (body : N A) (handler : N A) : N A := λ w,
  match body w with
  | (t, Raised _) => let '(t', r) := handler w in ((t ++ t')%list, r)
  | other => other
  end.

(** [try: body except ClientError as e: raise handler(e)] *)
Definition except_client_error {A} (body : N A) (handler : string → string → raised)
  : N A := λ w,
  match body w with
  | (t, Raised (Failed (ClientError code message))) => (t, Raised (handler code message))
  | other => other
  end.

(** [config[key]] *)
Definition config_getitem (config : gmap string pyval) (key : string) : outcome pyval :=
  match config !! key with
  | Some v => Returned v
  | None => Raised (Exn (KeyError key))
  end.

(** The parameters of [create_s3_client], with their defaults. *)
Definition create_s3_client_parameters : list (string * string) := [
  ("provider", "AWS S3");
  ("access_key", "");
  ("secret_key", "");
  ("region", "");
  ("endpoint_url", "");
  ("account_id", "")
].

(** The argument that a call with [config] unpacked as keyword
    arguments binds to a parameter: the
    value under its name, or the default.  [None] for a value that is
    not a string, on which [create_s3_client] is not followed. *)
Definition keyword_argument (config : gmap string pyval) (name : string) : option string :=
  match config !! name with
  | Some (PStr s) => Some s
  | Some _ => None
  | None => dict_get create_s3_client_parameters name
  end.

(** The keys of [config] that are not parameters of
    [create_s3_client]. *)
Definition unexpected_keywords (config : gmap string pyval) : gset string :=
  dom config ∖ list_to_set (create_s3_client_parameters.*1).

(** [create_s3_client] called with [config] unpacked as keyword
    arguments: every key of [config] must be a parameter. *)
Definition create_s3_client_with (config : gmap string pyval) : outcome client_kwargs :=
  let unexpected := unexpected_keywords config in
  if decide (unexpected = ∅) then
    match keyword_argument config "provider", keyword_argument config "access_key",
          keyword_argument config "secret_key", keyword_argument config "region",
          keyword_argument config "endpoint_url", keyword_argument config "account_id"
    with
    | Some provider, Some access_key, Some secret_key,
      Some region, Some endpoint_url, Some account_id =>
        match create_s3_client provider access_key secret_key region endpoint_url account_id with
        | Ok client => Returned client
        | Raise e => Raised (Exn e)
        end
    | _, _, _, _, _, _ => NotFollowed
    end
  else Raised (UnexpectedKeyword "create_s3_client" unexpected).

(** The answer of [head_object]: its [ETag], when it has one. *)
Record head_response : Type := {
  ETag : option string;
}.

(** The storage service behind a client: what each call made through
    a client returns or raises. *)
Record service : Type := {
  head_object : client_kwargs → string → string → outcome head_response;
  generate_presigned_url : client_kwargs → string → string → Z → outcome string;
}.

(** A call through the client, recorded as a request. *)
Definition request {A} (operation bucket key : string) (answer : outcome A) : N A :=
  λ _, ([Request operation bucket key], answer).

(** [profile or resolve_default_profile()], for the optional
    [profile] input of a node. *)
Definition node_config (profile : option (gmap string pyval)) : M (gmap string pyval) :=
  match profile with
  | Some config =>
      if truthy (PDict config) then mret config else resolve_default_profile
  | None => resolve_default_profile
  end.

(** What [profile or resolve_default_profile()] evaluates to, as a
    function of the input and [os.environ]. *)
Definition chosen_config (profile : option (gmap string pyval)) (w : snapshot)
  : gmap string pyval :=
  match profile with
  | Some config => if truthy (PDict config) then config else env_config (environ w)
  | None => env_config (environ w)
  end.

(** The four statements that every [execute] of nodes_save.py,
    nodes_load.py and nodes_browse.py starts with, after its
    imports:
    [config = profile or resolve_default_profile()],
    [validate_config(config)],
    [client = create_s3_client] of the unpacked [config],
    [bucket = config["bucket"]]. *)
Definition connect (profile : option (gmap string pyval))
  : N (gmap string pyval * client_kwargs * pyval) :=
  config ← of_M (node_config profile);
  of_M (validate_config config);;
  client ← of_outcome (create_s3_client_with config);
  bucket ← of_outcome (config_getitem config "bucket");
  mret (config, client, bucket).

(** A bucket or key argument must be a string. *)
Definition as_text (v : pyval) : outcome string :=
  match v with
  | PStr s => Returned s
  | _ => NotFollowed
  end.

Definition of_option {A} (o : option A) : outcome A :=
  match o with
  | Some a => Returned a
  | None => NotFollowed
  end.

(** *** nodes_load.py *)

Definition fingerprint_inputs (s3 : service) (key : string)
    (profile : option (gmap string pyval)) : N string :=
  except_exception
    (config ← of_M (node_config profile);
     client ← of_outcome (create_s3_client_with config);
     prefix ← of_outcome
       (of_option (format_value (config_get_default config "path_prefix" "")));
     let full_key := prefix ++ key in
     bucket_value ← of_outcome (config_getitem config "bucket");
     bucket ← of_outcome (as_text bucket_value);
     resp ← request "head_object" bucket full_key (head_object s3 client bucket full_key);
     mret (match ETag resp with Some etag => etag | None => "" end))
    (mret "").

(** *** nodes_browse.py *)

Definition GeneratePresignedURL_execute (s3 : service) (key : string) (expires_hours : Z)
    (profile : option (gmap string pyval)) : N string :=
  connected ← connect profile;
  let '(config, client, bucket_value) := connected in
  prefix ← of_outcome
    (of_option (format_value (config_get_default config "path_prefix" "")));
  let full_key := prefix ++ key in
  bucket ← of_outcome (as_text bucket_value);
  except_client_error
    (request "generate_presigned_url" bucket full_key
       (generate_presigned_url s3 client bucket full_key (expires_hours * 3600)))
    (λ code message, Exn (ValueError ("S3 error [" ++ code ++ "]: " ++ message))).

End Nodes.

Import Nodes.

(** * Properties *)

(** ** The provider registry *)

Section Registry.

Lemma registry_has_custom : dict_getitem PROVIDERS "Custom" = Ok custom_preset.
Proof. reflexivity. Qed.

Lemma lookup_preset_get provider :
  lookup_preset provider = Ok (dict_get_default PROVIDERS provider custom_preset).
Proof. unfold lookup_preset. rewrite registry_has_custom. reflexivity. Qed.

(** An item of the registry is what [dict_get] finds under its name:
    the names in the dict literal are pairwise different. *)
Lemma registry_get name preset :
  In (name, preset) PROVIDERS → dict_get PROVIDERS name = Some preset.
Proof.
  unfold PROVIDERS. cbn [In]. intros H.
  repeat (destruct H as [H | H]; [injection H as <- <-; reflexivity |]).
  destruct H.
Qed.

Lemma dict_get_In {V} (d : list (string * V)) key v :
  dict_get d key = Some v → In (key, v) d.
Proof.
  induction d as [| [k x] d IH]; cbn; [discriminate |].
  destruct (String.eqb_spec k key) as [-> | Hne].
  - intros [= ->]. left. reflexivity.
  - intros H. right. apply IH, H.
Qed.

Lemma dict_get_None {V} (d : list (string * V)) key :
  dict_get d key = None → ∀ v, ¬ In (key, v) d.
Proof.
  intros Hnone v Hin. induction d as [| [k x] d IH]; cbn in *; [assumption |].
  destruct (String.eqb_spec k key) as [-> | Hne]; [discriminate |].
  destruct Hin as [[= -> ->] | Hin]; [congruence | auto].
Qed.

Lemma lookup_never_fails_total provider : ∃ preset, lookup_preset provider = Ok preset.
Proof. rewrite lookup_preset_get. eexists. reflexivity. Qed.

(** C7: exactly one preset of the registry forces path-style
    addressing, the one under "MinIO" whose endpoint is the fixed
    [http://localhost:9000]; every other preset has
    [force_path_style = false]. *)
Theorem one_path_style_preset :
  filter (λ item, force_path_style item.2 = true) PROVIDERS
    = [("MinIO", {| endpoint_template := "http://localhost:9000";
                    default_region := "us-east-1";
                    force_path_style := true |})]
  ∧ Forall (λ item, force_path_style item.2 = String.eqb item.1 "MinIO") PROVIDERS
  ∧ length PROVIDERS = 8%nat.
Proof.
  split; [reflexivity |]. split; [| reflexivity].
  unfold PROVIDERS. repeat constructor.
Qed.

(** C8: looking a provider name up never fails; a name that is a key
    of the registry gets that key's preset, and any other name gets the
    "Custom" preset, which has an empty endpoint template, an empty
    default region and no forced path style. *)
Theorem lookup_never_fails (provider : string) :
  (∃ preset, lookup_preset provider = Ok preset)
  ∧ (∀ preset, In (provider, preset) PROVIDERS → lookup_preset provider = Ok preset)
  ∧ ((∀ preset, ¬ In (provider, preset) PROVIDERS) →
       lookup_preset provider
         = Ok {| endpoint_template := ""; default_region := ""; force_path_style := false |})
  ∧ In ("Custom", {| endpoint_template := ""; default_region := "";
                     force_path_style := false |}) PROVIDERS.
Proof.
  rewrite lookup_preset_get. unfold dict_get_default.
  split; [eexists; reflexivity |]. split; [| split].
  - intros preset Hin. rewrite (registry_get _ _ Hin). reflexivity.
  - intros Hno. destruct (dict_get PROVIDERS provider) as [p |] eqn:E; [| reflexivity].
    exfalso. exact (Hno p (dict_get_In _ _ _ E)).
  - unfold PROVIDERS. cbn. tauto.
Qed.

Lemma lookup_never_fails_witness :
  lookup_preset "MinIO"
    = Ok {| endpoint_template := "http://localhost:9000";
            default_region := "us-east-1"; force_path_style := true |}
  ∧ lookup_preset "minio" = Ok custom_preset.
Proof.
  split.
  - apply (proj1 (proj2 (lookup_never_fails "MinIO"))).
    unfold PROVIDERS. cbn. tauto.
  - apply (proj1 (proj2 (proj2 (lookup_never_fails "minio")))).
    intros preset Hin. apply registry_get in Hin. discriminate Hin.
Defined.

End Registry.

(** ** Endpoint derivation *)

Section Endpoint.

Variables region account_id : string.

Let kwargs : list (string * string) :=
  [("region", region); ("account_id", account_id)].

Lemma format_text c rest :
  c ≠ "{"%char → c ≠ "}"%char →
  format_from InText (String c rest) kwargs
    = res_map (String c) (format_from InText rest kwargs).
Proof.
  intros Ho Hc. cbn [format_from].
  apply Ascii.eqb_neq in Ho, Hc. rewrite Ho, Hc. reflexivity.
Qed.

Lemma substitute_text c rest :
  c ≠ "{"%char →
  substitute_from 0 (String c rest) region account_id
    = String c (substitute_from 0 rest region account_id).
Proof.
  intros Ho.
  assert (Hp : ∀ p, String.prefix (String "{" p) (String c rest) = false).
  { intros p. change (String.prefix (String "{" p) (String c rest))
      with (if ascii_dec "{" c then String.prefix p rest else false).
    destruct (ascii_dec "{" c) as [E | _]; [congruence | reflexivity]. }
  change (substitute_from 0 (String c rest) region account_id)
    with (if String.prefix "{region}" (String c rest)
          then region ++ substitute_from 7 rest region account_id
          else if String.prefix "{account_id}" (String c rest)
          then account_id ++ substitute_from 11 rest region account_id
          else String c (substitute_from 0 rest region account_id)).
  rewrite !Hp. reflexivity.
Qed.

Lemma format_region rest :
  format_from InText ("{region}" ++ rest) kwargs
    = res_map (String.append region) (format_from InText rest kwargs).
Proof. reflexivity. Qed.

Lemma format_account_id rest :
  format_from InText ("{account_id}" ++ rest) kwargs
    = res_map (String.append account_id) (format_from InText rest kwargs).
Proof. reflexivity. Qed.

Lemma substitute_region rest :
  substitute_from 0 ("{region}" ++ rest) region account_id
    = region ++ substitute_from 0 rest region account_id.
Proof. destruct rest; reflexivity. Qed.

Lemma substitute_account_id rest :
  substitute_from 0 ("{account_id}" ++ rest) region account_id
    = account_id ++ substitute_from 0 rest region account_id.
Proof. destruct rest; reflexivity. Qed.

(** On a template of text and the two placeholders, [str.format]
    returns, and returns the substituted template. *)
Lemma format_only_placeholders template :
  only_placeholders template →
  str_format template kwargs
    = Ok (substitute_placeholders template region account_id).
Proof.
  unfold str_format, substitute_placeholders.
  induction 1 as [| c rest Ho Hc _ IH | rest _ IH | rest _ IH].
  - reflexivity.
  - rewrite format_text, substitute_text, IH by assumption. reflexivity.
  - rewrite format_region, substitute_region, IH. reflexivity.
  - rewrite format_account_id, substitute_account_id, IH. reflexivity.
Qed.

End Endpoint.

Ltac placeholders :=
  repeat first
    [ apply op_end
    | apply op_region
    | apply op_account_id
    | apply op_text; [discriminate | discriminate |] ].

Lemma registry_templates name preset :
  In (name, preset) PROVIDERS → only_placeholders (endpoint_template preset).
Proof.
  unfold PROVIDERS. cbn [In]. intros H.
  repeat (destruct H as [H | H]; [injection H as <- <-; cbn; placeholders |]).
  destruct H.
Qed.

Lemma lookup_preset_templates provider preset :
  lookup_preset provider = Ok preset → only_placeholders (endpoint_template preset).
Proof.
  rewrite lookup_preset_get. unfold dict_get_default.
  destruct (dict_get PROVIDERS provider) as [p |] eqn:E; intros [= <-].
  - apply (registry_templates provider p), dict_get_In, E.
  - apply op_end.
Qed.

(** C2: the endpoint derived for a preset.  A non-empty explicit
    endpoint is returned verbatim, whatever the preset.  Without one,
    for the preset of any provider name, a non-empty template is
    returned with the effective region (the caller's if non-empty,
    else the preset's default) and the account id substituted for its
    placeholders, and an empty template gives the empty string. *)
Theorem derived_endpoint :
  (∀ preset explicit region account_id,
     nonempty explicit = true →
     effective_endpoint preset explicit region account_id = Ok explicit)
  ∧ (∀ provider region account_id,
       ∃ preset,
         lookup_preset provider = Ok preset
         ∧ effective_region preset region
             = (if nonempty region then region else default_region preset)
         ∧ effective_endpoint preset "" region account_id
             = Ok (if nonempty (endpoint_template preset)
                   then substitute_placeholders (endpoint_template preset)
                          (if nonempty region then region else default_region preset)
                          account_id
                   else ""))
  ∧ (∀ preset region account_id,
       only_placeholders (endpoint_template preset) →
       effective_endpoint preset "" region account_id
         = Ok (if nonempty (endpoint_template preset)
               then substitute_placeholders (endpoint_template preset)
                      (if nonempty region then region else default_region preset)
                      account_id
               else "")).
Proof.
  assert (Hgen : ∀ preset region account_id,
    only_placeholders (endpoint_template preset) →
    effective_endpoint preset "" region account_id
      = Ok (if nonempty (endpoint_template preset)
            then substitute_placeholders (endpoint_template preset)
                   (if nonempty region then region else default_region preset)
                   account_id
            else "")).
  { intros preset region account_id Hwf. unfold effective_endpoint. cbn [nonempty].
    destruct (nonempty (endpoint_template preset)); [| reflexivity].
    apply format_only_placeholders, Hwf. }
  split; [| split].
  - intros preset explicit region account_id He.
    unfold effective_endpoint. rewrite He. reflexivity.
  - intros provider region account_id.
    destruct (lookup_never_fails_total provider) as [preset Hp].
    exists preset. split; [exact Hp |]. split; [reflexivity |].
    apply Hgen. eapply lookup_preset_templates, Hp.
  - exact Hgen.
Qed.

Lemma derived_endpoint_witness :
  effective_endpoint
    {| endpoint_template := "https://s3.{region}.backblazeb2.com";
       default_region := "us-west-004"; force_path_style := false |}
    "https://custom.example.com" "" "" = Ok "https://custom.example.com"
  ∧ effective_endpoint
      {| endpoint_template := "https://{account_id}.example.com";
         default_region := "auto"; force_path_style := false |}
      "" "" "abc123" = Ok "https://abc123.example.com".
Proof.
  split.
  - apply (proj1 derived_endpoint). reflexivity.
  - apply (proj2 (proj2 derived_endpoint)
             {| endpoint_template := "https://{account_id}.example.com";
                default_region := "auto"; force_path_style := false |}).
    cbn. placeholders.
Defined.

(** [create_s3_client] never raises: it hands [boto3.client] the
    effective region, and the derived endpoint unless that is empty. *)
Lemma create_s3_client_endpoint provider access_key secret_key region explicit account_id :
  ∃ preset endpoint kwargs,
    lookup_preset provider = Ok preset
    ∧ effective_endpoint preset explicit region account_id = Ok endpoint
    ∧ create_s3_client provider access_key secret_key region explicit account_id
        = Ok kwargs
    ∧ endpoint_url kwargs = (if nonempty endpoint then Some endpoint else None)
    ∧ region_name kwargs = effective_region preset region
    ∧ addressing_style kwargs = (if force_path_style preset then "path" else "auto").
Proof.
  destruct (lookup_never_fails_total provider) as [preset Hp].
  assert (He : ∃ endpoint,
    effective_endpoint preset explicit region account_id = Ok endpoint).
  { unfold effective_endpoint.
    destruct (nonempty explicit); [eauto |].
    destruct (nonempty (endpoint_template preset)); [| eauto].
    rewrite format_only_placeholders by (eapply lookup_preset_templates, Hp). eauto. }
  destruct He as [endpoint He].
  exists preset, endpoint. eexists.
  split; [exact Hp |]. split; [exact He |].
  unfold create_s3_client. rewrite Hp. cbn [res_bind]. rewrite He. cbn [res_bind].
  repeat split.
Qed.

(** The endpoint tests of the client factory. *)
Example b2_sets_endpoint :
  create_s3_client "Backblaze B2" "AKID" "SECRET" "eu-central-003" "" ""
    = Ok {| aws_access_key_id := "AKID"; aws_secret_access_key := "SECRET";
            region_name := "eu-central-003"; signature_version := "s3v4";
            addressing_style := "auto"; retries_max_attempts := 3;
            retries_mode := "adaptive"; user_agent_extra := "b2ai-comfyui";
            endpoint_url := Some "https://s3.eu-central-003.backblazeb2.com" |}.
Proof. reflexivity. Qed.

Example aws_no_endpoint_url :
  create_s3_client "AWS S3" "AKID" "SECRET" "" "" ""
    = Ok {| aws_access_key_id := "AKID"; aws_secret_access_key := "SECRET";
            region_name := "us-east-1"; signature_version := "s3v4";
            addressing_style := "auto"; retries_max_attempts := 3;
            retries_mode := "adaptive"; user_agent_extra := "b2ai-comfyui";
            endpoint_url := None |}.
Proof. reflexivity. Qed.

Example custom_endpoint_overrides_preset :
  create_s3_client "Backblaze B2" "AKID" "SECRET" "" "https://custom.example.com" ""
    = Ok {| aws_access_key_id := "AKID"; aws_secret_access_key := "SECRET";
            region_name := "us-west-004"; signature_version := "s3v4";
            addressing_style := "auto"; retries_max_attempts := 3;
            retries_mode := "adaptive"; user_agent_extra := "b2ai-comfyui";
            endpoint_url := Some "https://custom.example.com" |}.
Proof. reflexivity. Qed.

Example unknown_provider_uses_custom :
  create_s3_client "SomeUnknown" "AKID" "SECRET" "" "https://unknown.example.com" ""
    = Ok {| aws_access_key_id := "AKID"; aws_secret_access_key := "SECRET";
            region_name := ""; signature_version := "s3v4";
            addressing_style := "auto"; retries_max_attempts := 3;
            retries_mode := "adaptive"; user_agent_extra := "b2ai-comfyui";
            endpoint_url := Some "https://unknown.example.com" |}.
Proof. reflexivity. Qed.

Example minio_uses_path_style :
  create_s3_client "MinIO" "AKID" "SECRET" "" "" ""
    = Ok {| aws_access_key_id := "AKID"; aws_secret_access_key := "SECRET";
            region_name := "us-east-1"; signature_version := "s3v4";
            addressing_style := "path"; retries_max_attempts := 3;
            retries_mode := "adaptive"; user_agent_extra := "b2ai-comfyui";
            endpoint_url := Some "http://localhost:9000" |}.
Proof. reflexivity. Qed.

(** Outside the registry a template can name a field that
    [create_s3_client] does not pass, and [str.format] raises. *)
Example unknown_placeholder_raises :
  effective_endpoint
    {| endpoint_template := "https://{bucket}.example.com";
       default_region := ""; force_path_style := false |}
    "" "us-east-1" "" = Raise (KeyError "bucket").
Proof. reflexivity. Qed.

(** ** Running the layers of [resolve_profile] *)

Section Layers.

Lemma run_bind {A B} (m : M A) (k : A → M B) w :
  (m ≫= k) w
    = match m w with
      | (t, Ok a) => ((t ++ (k a w).1)%list, (k a w).2)
      | (t, Raise e) => (t, Raise e)
      end.
Proof.
  unfold mbind, M_bind, bind.
  destruct (m w) as [t [a | e]]; [| reflexivity].
  destruct (k a w); reflexivity.
Qed.

Lemma run_bind_lift {A B} (r : res A) (k : A → M B) w :
  (lift r ≫= k) w = match r with Ok a => k a w | Raise e => ([], Raise e) end.
Proof.
  rewrite run_bind. unfold lift. destruct r as [a | e]; [| reflexivity].
  cbn [app]. destruct (k a w); reflexivity.
Qed.

Lemma run_split {A} (m : M A) w : m w = (events m w, value m w).
Proof. unfold events, value. destruct (m w); reflexivity. Qed.

Lemma lookup_dict_update (config other : gmap string pyval) key :
  dict_update config other !! key
    = match other !! key with Some v => Some v | None => config !! key end.
Proof.
  unfold dict_update. rewrite lookup_union.
  destruct (other !! key), (config !! key); reflexivity.
Qed.

Lemma lookup_truthy_items (d : gmap string pyval) key :
  truthy_items d !! key
    = match d !! key with
      | Some v => if truthy v then Some v else None
      | None => None
      end.
Proof.
  unfold truthy_items. rewrite map_lookup_filter.
  destruct (d !! key) as [v |]; [| reflexivity]. cbn.
  destruct (truthy v); reflexivity.
Qed.

Lemma truthy_items_empty : truthy_items ∅ = ∅.
Proof. apply map_eq. intros k. rewrite lookup_truthy_items, lookup_empty. reflexivity. Qed.

Lemma dict_update_empty (config : gmap string pyval) : dict_update config ∅ = config.
Proof. apply map_eq. intros k. rewrite lookup_dict_update, lookup_empty. reflexivity. Qed.

Lemma truthy_dict (m : gmap string pyval) : truthy (PDict m) = false → m = ∅.
Proof.
  cbn. intros H. apply negb_false_iff, bool_decide_eq_true in H.
  apply dom_empty_inv_L, H.
Qed.

(** The loop of [_profile_from_env] reads the environment, logs
    nothing and cannot raise. *)
Lemma profile_from_env_loop w items profile :
  for_each items (λ profile '(env_suffix, key),
      val ← os_environ_get (ENV_PREFIX ++ env_suffix) "";
      if nonempty val then mret (<[key := PStr val]> profile) else mret profile)
    profile w
  = ([], Ok (foldl (env_step (environ w)) profile items)).
Proof.
  set (body := λ (profile : gmap string pyval) '(env_suffix, key), _).
  assert (Hbody : ∀ profile item,
    body profile item w = ([], Ok (env_step (environ w) profile item))).
  { intros p [env_suffix key]. unfold body, env_step. rewrite run_bind.
    unfold os_environ_get. cbn [fst snd app].
    destruct (nonempty _); reflexivity. }
  revert profile. induction items as [| item items IH]; intros profile.
  - reflexivity.
  - cbn [for_each foldl]. rewrite run_bind, Hbody, IH. reflexivity.
Qed.

Lemma run_profile_from_env w :
  _profile_from_env w = ([], Ok (from_environ (environ w))).
Proof. apply profile_from_env_loop. Qed.

Lemma run_env_layer w : env_layer w = ([], Ok (env_config (environ w))).
Proof. unfold env_layer. rewrite run_bind, run_profile_from_env. reflexivity. Qed.

Lemma run_get_profiles_path w : _get_profiles_path w = ([], Ok (profiles_path w)).
Proof. reflexivity. Qed.

(** The named-profile block under a name that selects a profile, in
    terms of what [_load_profiles] does. *)
Lemma run_named_layer_selected profile_name config w :
  selects_profile profile_name = true →
  named_layer profile_name config w
    = match value _load_profiles w with
      | Ok profiles =>
          match py_get profiles profile_name (PDict ∅) with
          | Ok named =>
              if truthy named then
                (events _load_profiles w,
                 res_map (λ items, dict_update config (truthy_items items))
                   (py_items named))
              else
                ((events _load_profiles w ++
                  [LogWarning ("Cloud storage profile '" ++ profile_name
                               ++ "' not found")])%list,
                 Ok config)
          | Raise e => (events _load_profiles w, Raise e)
          end
      | Raise e => (events _load_profiles w, Raise e)
      end.
Proof.
  unfold named_layer, selects_profile. intros ->.
  rewrite run_bind, (run_split _load_profiles w).
  destruct (value _load_profiles w) as [profiles | e]; [| reflexivity].
  rewrite run_bind_lift.
  destruct (py_get profiles profile_name (PDict ∅)) as [named | e];
    [| cbn; rewrite app_nil_r; reflexivity].
  destruct (truthy named); cbn [negb].
  - rewrite run_bind_lift.
    destruct (py_items named); cbn; rewrite app_nil_r; reflexivity.
  - reflexivity.
Qed.

(** The ways through the named-profile block. *)
Lemma named_layer_skipped profile_name config w :
  selects_profile profile_name = false →
  named_layer profile_name config w = ([], Ok config).
Proof. unfold named_layer, selects_profile. intros ->. reflexivity. Qed.

Lemma named_layer_warns profile_name store config w :
  selects_profile profile_name = true →
  holds_store w store →
  match store !! profile_name with
  | Some v => truthy v = false
  | None => True
  end →
  named_layer profile_name config w
    = ((events _load_profiles w ++
        [LogWarning ("Cloud storage profile '" ++ profile_name ++ "' not found")])%list,
       Ok config).
Proof.
  intros Hsel Hstore Hv. rewrite (run_named_layer_selected _ _ _ Hsel), Hstore.
  cbn [py_get]. destruct (store !! profile_name) as [v |].
  - rewrite Hv. reflexivity.
  - reflexivity.
Qed.

Lemma named_layer_overlays profile_name store named config w :
  selects_profile profile_name = true →
  holds_store w store →
  store !! profile_name = Some (PDict named) →
  truthy (PDict named) = true →
  named_layer profile_name config w
    = (events _load_profiles w, Ok (dict_update config (truthy_items named))).
Proof.
  intros Hsel Hstore Hs Ht. rewrite (run_named_layer_selected _ _ _ Hsel), Hstore.
  cbn [py_get]. rewrite Hs, Ht. reflexivity.
Qed.

Lemma named_layer_raises profile_name store v config w :
  selects_profile profile_name = true →
  holds_store w store →
  store !! profile_name = Some v →
  truthy v = true →
  (∀ m, v ≠ PDict m) →
  named_layer profile_name config w
    = (events _load_profiles w, Raise (no_attribute v "items")).
Proof.
  intros Hsel Hstore Hs Ht Hd. rewrite (run_named_layer_selected _ _ _ Hsel), Hstore.
  cbn [py_get]. rewrite Hs, Ht.
  destruct v; try reflexivity. destruct (Hd m eq_refl).
Qed.

(** A stored object, empty or not, leaves the configuration with its
    true items laid over it. *)
Lemma named_layer_object profile_name store named config w :
  selects_profile profile_name = true →
  holds_store w store →
  store !! profile_name = Some (PDict named) →
  value (named_layer profile_name config) w
    = Ok (dict_update config (truthy_items named)).
Proof.
  intros Hsel Hstore Hs. unfold value at 1.
  destruct (truthy (PDict named)) eqn:Ht.
  - rewrite (named_layer_overlays _ _ _ _ _ Hsel Hstore Hs Ht). reflexivity.
  - rewrite (named_layer_warns _ store); [| assumption | assumption | rewrite Hs; assumption].
    apply truthy_dict in Ht. subst named.
    rewrite truthy_items_empty, dict_update_empty. reflexivity.
Qed.

Lemma run_after_profile_layer profile_name w :
  after_profile_layer profile_name w
    = named_layer profile_name (env_config (environ w)) w.
Proof.
  unfold after_profile_layer. rewrite run_bind, run_env_layer. cbn [app fst snd].
  destruct (named_layer _ _ w). reflexivity.
Qed.

(** [resolve_profile] is the first two layers followed by the
    overrides, which log nothing and cannot raise. *)
Lemma run_resolve_profile profile_name po bo ppo w :
  resolve_profile profile_name po bo ppo w
    = (events (after_profile_layer profile_name) w,
       res_map (override_layer po bo ppo) (value (after_profile_layer profile_name) w)).
Proof.
  unfold events, value. rewrite run_after_profile_layer.
  unfold resolve_profile. rewrite run_bind, run_env_layer. cbn [app fst snd].
  rewrite run_bind.
  destruct (named_layer _ _ w) as [t [c | e]]; cbn; [| reflexivity].
  rewrite app_nil_r. reflexivity.
Qed.

Lemma value_resolve_profile profile_name po bo ppo w :
  value (resolve_profile profile_name po bo ppo) w
    = res_map (override_layer po bo ppo) (value (after_profile_layer profile_name) w).
Proof. unfold value at 1. rewrite run_resolve_profile. reflexivity. Qed.

Lemma events_resolve_profile profile_name po bo ppo w :
  events (resolve_profile profile_name po bo ppo) w
    = events (after_profile_layer profile_name) w.
Proof. unfold events at 1. rewrite run_resolve_profile. reflexivity. Qed.

Lemma value_after_profile_layer profile_name w :
  value (after_profile_layer profile_name) w
    = value (named_layer profile_name (env_config (environ w))) w.
Proof. unfold value. rewrite run_after_profile_layer. reflexivity. Qed.

Lemma events_after_profile_layer profile_name w :
  events (after_profile_layer profile_name) w
    = events (named_layer profile_name (env_config (environ w))) w.
Proof. unfold events. rewrite run_after_profile_layer. reflexivity. Qed.

(** Whatever the first two layers return is the environment's
    configuration with the true items of some overlay laid over it:
    nothing, or the stored profile the name selects. *)
Lemma after_profile_layer_returns w profile_name config :
  value (after_profile_layer profile_name) w = Ok config →
  ∃ overlay,
    config = dict_update (env_config (environ w)) (truthy_items overlay)
    ∧ (overlay = ∅
       ∨ (selects_profile profile_name = true
          ∧ ∃ store, holds_store w store
                     ∧ store !! profile_name = Some (PDict overlay))).
Proof.
  unfold value at 1. rewrite run_after_profile_layer.
  destruct (selects_profile profile_name) eqn:Hsel.
  - rewrite (run_named_layer_selected _ _ _ Hsel).
    destruct (value _load_profiles w) as [profiles | e] eqn:Hload; [| discriminate].
    destruct profiles as [| | | | | | store]; try discriminate.
    cbn [py_get].
    destruct (store !! profile_name) as [v |] eqn:Hs.
    + destruct (truthy v) eqn:Ht.
      * destruct v as [| | | | | | named]; try discriminate.
        cbn. intros [= <-]. exists named. split; [reflexivity |].
        right. split; [reflexivity |]. exists store. split; assumption.
      * cbn. intros [= <-]. exists ∅.
        rewrite truthy_items_empty, dict_update_empty. auto.
    + cbn. intros [= <-]. exists ∅.
      rewrite truthy_items_empty, dict_update_empty. auto.
  - rewrite named_layer_skipped by assumption. cbn. intros [= <-]. exists ∅.
    rewrite truthy_items_empty, dict_update_empty. auto.
Qed.

(** Over a store of objects the first two layers return. *)
Lemma after_profile_layer_total w store profile_name :
  holds_store w store →
  profiles_are_objects store →
  ∃ config, value (after_profile_layer profile_name) w = Ok config.
Proof.
  intros Hstore Hobj. unfold value at 1. rewrite run_after_profile_layer.
  destruct (selects_profile profile_name) eqn:Hsel.
  - destruct (store !! profile_name) as [v |] eqn:Hs.
    + destruct (Hobj _ _ Hs) as [named ->].
      pose proof (named_layer_object _ _ _ (env_config (environ w)) _ Hsel Hstore Hs) as H.
      unfold value in H. rewrite H. eauto.
    + rewrite (named_layer_warns _ store); [eauto | assumption | assumption |].
      rewrite Hs. exact I.
  - rewrite named_layer_skipped by assumption. eauto.
Qed.

End Layers.

(** ** The named-profile layer *)

Section NamedProfile.

Lemma selects_profile_true profile_name :
  selects_profile profile_name = true
  ↔ nonempty profile_name = true ∧ profile_name ≠ "(env vars)".
Proof.
  unfold selects_profile. rewrite andb_true_iff, negb_true_iff, String.eqb_neq.
  reflexivity.
Qed.

Lemma lookup_override_layer_other po bo ppo config key :
  overridden po bo ppo key = false →
  override_layer po bo ppo config !! key = config !! key.
Proof.
  unfold overridden, override_layer. intros H.
  apply orb_false_iff in H as [H Hpp]. apply orb_false_iff in H as [Hp Hb].
  rewrite <- andb_assoc in Hp.
  assert (Hpp' : nonempty ppo = true → "path_prefix" ≠ key).
  { intros E. rewrite E, andb_true_r in Hpp. apply String.eqb_neq in Hpp. congruence. }
  assert (Hb' : nonempty bo = true → "bucket" ≠ key).
  { intros E. rewrite E, andb_true_r in Hb. apply String.eqb_neq in Hb. congruence. }
  assert (Hp' : nonempty po && negb (po =? "(from profile)") = true → "provider" ≠ key).
  { intros E. rewrite E, andb_true_r in Hp. apply String.eqb_neq in Hp. congruence. }
  destruct (nonempty ppo); [rewrite lookup_insert_ne by auto |];
    (destruct (nonempty bo); [rewrite lookup_insert_ne by auto |]);
    (destruct (nonempty po && negb (po =? "(from profile)"));
       [rewrite lookup_insert_ne by auto |]);
    reflexivity.
Qed.

(** C1, as the code has it: under a non-empty name that the profile
    layer does not skip and that the store maps to a profile, the
    layer returns, and in its result every field is the stored
    profile's value when that value is non-empty, and the environment
    layer's value when the stored profile lacks the field or holds an
    empty value for it.  That is the result of the resolution when no
    override is given; an override leaves every field it does not
    assign as the profile layer made it. *)
Theorem profile_fields_win w store profile_name named :
  holds_store w store →
  nonempty profile_name = true →
  profile_name ≠ "(env vars)" →
  store !! profile_name = Some (PDict named) →
  ∃ from_env layered,
    value env_layer w = Ok from_env
    ∧ value (after_profile_layer profile_name) w = Ok layered
    ∧ (∀ key v, named !! key = Some v → truthy v = true → layered !! key = Some v)
    ∧ (∀ key, named !! key = None → layered !! key = from_env !! key)
    ∧ (∀ key v, named !! key = Some v → truthy v = false →
         layered !! key = from_env !! key)
    ∧ value (resolve_profile profile_name "" "" "") w = Ok layered
    ∧ value (resolve_profile profile_name "(from profile)" "" "") w = Ok layered
    ∧ (∀ po bo ppo,
         ∃ config,
           value (resolve_profile profile_name po bo ppo) w = Ok config
           ∧ ∀ key, overridden po bo ppo key = false → config !! key = layered !! key).
Proof.
  intros Hstore Hne Hsent Hstored.
  assert (Hsel : selects_profile profile_name = true)
    by (apply selects_profile_true; auto).
  assert (Hlayer : value (after_profile_layer profile_name) w
                   = Ok (dict_update (env_config (environ w)) (truthy_items named))).
  { rewrite value_after_profile_layer.
    apply (named_layer_object _ _ _ _ _ Hsel Hstore Hstored). }
  exists (env_config (environ w)),
    (dict_update (env_config (environ w)) (truthy_items named)).
  split; [unfold value; rewrite run_env_layer; reflexivity |].
  split; [exact Hlayer |].
  split; [| split; [| split]].
  - intros key v Hk Ht. rewrite lookup_dict_update, lookup_truthy_items, Hk, Ht. reflexivity.
  - intros key Hk. rewrite lookup_dict_update, lookup_truthy_items, Hk. reflexivity.
  - intros key v Hk Ht. rewrite lookup_dict_update, lookup_truthy_items, Hk, Ht. reflexivity.
  - split; [rewrite value_resolve_profile, Hlayer; reflexivity |].
    split; [rewrite value_resolve_profile, Hlayer; reflexivity |].
    intros po bo ppo. eexists.
    split; [rewrite value_resolve_profile, Hlayer; reflexivity |].
    intros key Hov. apply lookup_override_layer_other, Hov.
Qed.

Lemma profile_fields_win_witness :
  field_of (value (resolve_profile "staging" "" "" "outputs/") with_partial) "bucket"
    = Some (PStr "profilebucket")
  ∧ field_of (value (resolve_profile "staging" "" "" "outputs/") with_partial) "region"
    = field_of (value env_layer with_partial) "region".
Proof.
  assert (Hs : staging_store !! "staging" = Some (PDict partial_profile))
    by apply lookup_insert_eq.
  destruct (profile_fields_win with_partial staging_store "staging" partial_profile
              eq_refl eq_refl ltac:(discriminate) Hs)
    as (from_env & layered & -> & _ & Hwin & _ & Hkeep & _ & _ & Hover).
  destruct (Hover "" "" "outputs/") as (config & -> & Hframe).
  cbn [field_of]. split.
  - rewrite Hframe by reflexivity. apply Hwin; reflexivity.
  - rewrite Hframe by reflexivity. apply (Hkeep "region" (PStr "")); reflexivity.
Defined.

(** C1 as worded fails: a profile stored under the empty name exists
    in the store and has a non-empty bucket; the profile layer is not
    asked to skip it, and resolving under that name returns the
    environment's bucket. *)
Lemma profile_under_empty_name_is_ignored :
  ¬ (∀ w store profile_name named key v,
       holds_store w store →
       profile_name ≠ "(env vars)" →
       store !! profile_name = Some (PDict named) →
       named !! key = Some v →
       truthy v = true →
       ∃ config,
         value (resolve_profile profile_name "" "" "") w = Ok config
         ∧ config !! key = Some v).
Proof.
  intros H.
  destruct (H with_unnamed unnamed_store "" partial_profile
              "bucket" (PStr "profilebucket"))
    as (config & Hrun & Hkey).
  - reflexivity.
  - discriminate.
  - apply lookup_insert_eq.
  - reflexivity.
  - reflexivity.
  - assert (Henv : field_of (value (resolve_profile "" "" "" "") with_unnamed)
                     "bucket" = Some (PStr "envbucket")) by (vm_compute; reflexivity).
    rewrite Hrun in Henv. cbn [field_of] in Henv. congruence.
Qed.

(** C6: under a name the store has no entry for, resolution returns,
    and returns the configuration it returns under "(env vars)" with
    the same overrides; a non-empty such name costs the reading of the
    store and one warning. *)
Theorem missing_profile_is_env_only w store profile_name po bo ppo :
  holds_store w store →
  store !! profile_name = None →
  profile_name ≠ "(env vars)" →
  ∃ config,
    value (resolve_profile profile_name po bo ppo) w = Ok config
    ∧ value (resolve_profile "(env vars)" po bo ppo) w = Ok config
    ∧ (nonempty profile_name = true →
       events (resolve_profile profile_name po bo ppo) w
         = (events _load_profiles w ++
            [LogWarning ("Cloud storage profile '" ++ profile_name
                         ++ "' not found")])%list).
Proof.
  intros Hstore Hmiss Hsent.
  exists (override_layer po bo ppo (env_config (environ w))).
  rewrite !value_resolve_profile, events_resolve_profile.
  rewrite !value_after_profile_layer, events_after_profile_layer.
  unfold value at 1 2, events at 1.
  rewrite (named_layer_skipped "(env vars)") by reflexivity.
  destruct (selects_profile profile_name) eqn:Hsel.
  - rewrite (named_layer_warns _ store); [| assumption | assumption | rewrite Hmiss; exact I].
    repeat split; reflexivity.
  - rewrite named_layer_skipped by assumption.
    split; [reflexivity |]. split; [reflexivity |].
    intros Hne. exfalso.
    assert (selects_profile profile_name = true)
      by (apply selects_profile_true; auto).
    congruence.
Qed.

Lemma missing_profile_is_env_only_witness :
  ∃ config,
    value (resolve_profile "nonexistent" "Backblaze B2" "mybucket" "") with_production
      = Ok config
    ∧ value (resolve_profile "(env vars)" "Backblaze B2" "mybucket" "") with_production
      = Ok config.
Proof.
  destruct (missing_profile_is_env_only with_production production_store "nonexistent"
              "Backblaze B2" "mybucket" "")
    as (config & H1 & H2 & _).
  - reflexivity.
  - vm_compute. reflexivity.
  - discriminate.
  - exists config. split; assumption.
Defined.

(** C9: the empty profile name skips the named-profile block: the
    profiles file is not touched, nothing is logged, and the outcome
    is the one of "(env vars)" with the same overrides, whatever the
    state of the profiles file. *)
Theorem empty_profile_name_skips_store w po bo ppo :
  resolve_profile "" po bo ppo w = resolve_profile "(env vars)" po bo ppo w
  ∧ events (resolve_profile "" po bo ppo) w = []
  ∧ ∃ config, value (resolve_profile "" po bo ppo) w = Ok config.
Proof.
  rewrite value_resolve_profile, events_resolve_profile.
  rewrite value_after_profile_layer, events_after_profile_layer.
  rewrite !run_resolve_profile.
  rewrite !value_after_profile_layer, !events_after_profile_layer.
  unfold value, events. rewrite !named_layer_skipped by reflexivity.
  repeat split. eexists. reflexivity.
Qed.

(** Where the difference shows: over a profiles file that holds a
    JSON list, a name that selects a profile makes the resolver raise,
    and the empty name does not reach the file. *)
Example empty_name_over_list_file :
  resolve_profile "production" "" "" "" list_file
    = ([FileAccess "/home/user/.comfyui-cloud-storage/profiles.json"],
       Raise (AttributeError "'list' object has no attribute 'get'"))
  ∧ events (resolve_profile "" "" "" "") list_file = []
  ∧ field_of (value (resolve_profile "" "" "" "") list_file) "bucket"
      = Some (PStr "envbucket").
Proof. vm_compute. auto. Qed.

End NamedProfile.

(** ** The environment layer *)

Section Environment.

Variable env : gmap string string.

Lemma env_step_lookup_ne profile item key :
  item.2 ≠ key → env_step env profile item !! key = profile !! key.
Proof.
  intros Hne. unfold env_step.
  destruct (nonempty _); [| reflexivity].
  apply lookup_insert_ne, Hne.
Qed.

Lemma env_step_lookup_eq profile env_suffix key :
  env_step env profile (env_suffix, key) !! key
    = (let val := match env !! (ENV_PREFIX ++ env_suffix) with
                  | Some v => v | None => "" end in
       if nonempty val then Some (PStr val) else profile !! key).
Proof.
  unfold env_step. cbn [fst snd].
  destruct (nonempty _); [| reflexivity].
  apply lookup_insert_eq.
Qed.

(** Each variable feeds exactly the field [ENV_KEYS] pairs it with,
    and only when it is set to a non-empty string. *)
Lemma from_environ_lookup env_suffix key :
  In (env_suffix, key) ENV_KEYS →
  from_environ env !! key
    = (let val := match env !! (ENV_PREFIX ++ env_suffix) with
                  | Some v => v | None => "" end in
       if nonempty val then Some (PStr val) else None).
Proof.
  unfold ENV_KEYS. cbn [In]. intros H.
  repeat (destruct H as [H | H];
    [ injection H as <- <-; unfold from_environ, ENV_KEYS; cbn [foldl];
      repeat (rewrite env_step_lookup_ne by discriminate);
      rewrite env_step_lookup_eq; cbn zeta;
      destruct (nonempty _); [reflexivity |];
      repeat (rewrite env_step_lookup_ne by discriminate);
      apply lookup_empty
    | ]).
  destruct H.
Qed.

Lemma initial_config_fields :
  Forall (λ key, is_Some (initial_config !! key)) CONFIG_FIELDS.
Proof. unfold CONFIG_FIELDS. repeat constructor; eexists; reflexivity. Qed.

Lemma initial_config_provider : initial_config !! "provider" = Some (PStr "AWS S3").
Proof. reflexivity. Qed.

(** After the environment layer the provider is the default or the
    non-empty value of its variable. *)
Lemma env_config_provider :
  env_config env !! "provider"
    = Some (PStr (match env !! "COMFY_S3_PROVIDER" with
                  | Some v => if nonempty v then v else "AWS S3"
                  | None => "AWS S3"
                  end)).
Proof.
  unfold env_config.
  rewrite lookup_dict_update, lookup_truthy_items.
  rewrite (from_environ_lookup "PROVIDER" "provider") by (cbn; tauto).
  cbn zeta. change (ENV_PREFIX ++ "PROVIDER") with "COMFY_S3_PROVIDER".
  destruct (env !! "COMFY_S3_PROVIDER") as [v |]; [| reflexivity].
  destruct (nonempty v) eqn:E; [| reflexivity].
  cbn [truthy]. rewrite E. reflexivity.
Qed.

End Environment.

(** The first resolver test of the specification: with credentials
    and bucket in the environment, "(env vars)" yields those three and
    the defaults elsewhere. *)
Example env_vars_only :
  map (field_of (value (resolve_profile "(env vars)" "" "" "") env_only)) CONFIG_FIELDS
    = [Some (PStr "AWS S3"); Some (PStr "envkey"); Some (PStr "envsecret");
       Some (PStr ""); Some (PStr "envbucket"); Some (PStr ""); Some (PStr "");
       Some (PStr "")].
Proof. vm_compute. reflexivity. Qed.

(** The second: a named profile laid over the same environment. *)
Example named_profile_overlays_env :
  map (field_of (value (resolve_profile "production" "" "" "") with_production))
      ["access_key"; "bucket"; "region"; "provider"]
    = [Some (PStr "profilekey"); Some (PStr "profilebucket");
       Some (PStr "eu-central-003"); Some (PStr "Backblaze B2")].
Proof. vm_compute. reflexivity. Qed.

(** ** The per-node overrides *)

Section Overrides.

Variables po bo ppo : string.
Variable config : gmap string pyval.

Lemma lookup_override_layer_provider :
  override_layer po bo ppo config !! "provider"
    = if nonempty po && negb (String.eqb po "(from profile)")
      then Some (PStr po) else config !! "provider".
Proof.
  unfold override_layer.
  destruct (nonempty ppo); [rewrite lookup_insert_ne by discriminate |];
    (destruct (nonempty bo); [rewrite lookup_insert_ne by discriminate |]);
    (destruct (nonempty po && negb (po =? "(from profile)"));
       [apply lookup_insert_eq | reflexivity]).
Qed.

Lemma lookup_override_layer_bucket :
  override_layer po bo ppo config !! "bucket"
    = if nonempty bo then Some (PStr bo) else config !! "bucket".
Proof.
  unfold override_layer.
  destruct (nonempty ppo); [rewrite lookup_insert_ne by discriminate |];
    (destruct (nonempty bo); [apply lookup_insert_eq |]);
    (destruct (nonempty po && negb (po =? "(from profile)"));
       [apply lookup_insert_ne; discriminate | reflexivity]).
Qed.

Lemma lookup_override_layer_path_prefix :
  override_layer po bo ppo config !! "path_prefix"
    = if nonempty ppo then Some (PStr ppo) else config !! "path_prefix".
Proof.
  unfold override_layer.
  destruct (nonempty ppo); [apply lookup_insert_eq |];
    (destruct (nonempty bo); [rewrite lookup_insert_ne by discriminate |]);
    (destruct (nonempty po && negb (po =? "(from profile)"));
       [apply lookup_insert_ne; discriminate | reflexivity]).
Qed.

Lemma lookup_override_layer_frame key :
  key ≠ "provider" → key ≠ "bucket" → key ≠ "path_prefix" →
  override_layer po bo ppo config !! key = config !! key.
Proof.
  intros Hp Hb Hpp. apply lookup_override_layer_other. unfold overridden.
  apply String.eqb_neq in Hp, Hb, Hpp. rewrite Hp, Hb, Hpp. reflexivity.
Qed.

Lemma override_layer_keeps_fields key :
  is_Some (config !! key) → is_Some (override_layer po bo ppo config !! key).
Proof.
  intros Hk. unfold override_layer.
  repeat match goal with
  | |- context [if ?b then _ else _] => destruct b
  end; rewrite ?lookup_insert_is_Some'; tauto.
Qed.

End Overrides.

Section OverrideLayer.

(** C5, as the code has it: the override layer assigns at most
    provider, bucket and path_prefix.  The provider override is
    applied only when it is non-empty and is not "(from profile)", the
    other two only when non-empty; access_key, secret_key, region,
    endpoint_url, account_id and every other key keep the value they
    have after the profile layer, whatever the overrides.  The
    override layer never writes "(from profile)": the resolved
    provider is that text only if the profile layer left it there. *)
Theorem overrides_touch_three_fields w profile_name po bo ppo before :
  value (after_profile_layer profile_name) w = Ok before →
  ∃ config,
    value (resolve_profile profile_name po bo ppo) w = Ok config
    ∧ config !! "provider"
        = (if nonempty po && negb (String.eqb po "(from profile)")
           then Some (PStr po) else before !! "provider")
    ∧ config !! "bucket"
        = (if nonempty bo then Some (PStr bo) else before !! "bucket")
    ∧ config !! "path_prefix"
        = (if nonempty ppo then Some (PStr ppo) else before !! "path_prefix")
    ∧ Forall (λ key, config !! key = before !! key)
        ["access_key"; "secret_key"; "region"; "endpoint_url"; "account_id"]
    ∧ (∀ key, key ≠ "provider" → key ≠ "bucket" → key ≠ "path_prefix" →
         config !! key = before !! key)
    ∧ (before !! "provider" ≠ Some (PStr "(from profile)") →
         config !! "provider" ≠ Some (PStr "(from profile)"))
    ∧ events (resolve_profile profile_name po bo ppo) w
        = events (after_profile_layer profile_name) w.
Proof.
  intros Hbefore. exists (override_layer po bo ppo before).
  rewrite value_resolve_profile, events_resolve_profile, Hbefore.
  split; [reflexivity |].
  rewrite lookup_override_layer_provider, lookup_override_layer_bucket,
    lookup_override_layer_path_prefix.
  repeat split.
  - repeat constructor; apply lookup_override_layer_frame; discriminate.
  - apply lookup_override_layer_frame.
  - intros Hb. destruct (nonempty po && negb (po =? "(from profile)")) eqn:E.
    + apply andb_true_iff in E as [_ E].
      apply negb_true_iff, String.eqb_neq in E. congruence.
    + exact Hb.
Qed.

Lemma overrides_touch_three_fields_witness :
  ∃ config,
    value (resolve_profile "production" "(from profile)" "mybucket" "outputs/")
      with_production = Ok config
    ∧ config !! "provider" = Some (PStr "Backblaze B2")
    ∧ config !! "bucket" = Some (PStr "mybucket")
    ∧ config !! "access_key" = Some (PStr "profilekey").
Proof.
  destruct (overrides_touch_three_fields with_production "production"
              "(from profile)" "mybucket" "outputs/"
              (dict_update (env_config test_environ) (truthy_items production_profile))
              eq_refl)
    as (config & Hrun & Hp & Hb & _ & _ & Hframe & _).
  exists config. split; [exact Hrun |]. split; [| split].
  - rewrite Hp. reflexivity.
  - rewrite Hb. reflexivity.
  - rewrite Hframe by discriminate. reflexivity.
Defined.

(** When the first two layers raise, so does [resolve_profile]. *)
Lemma resolve_profile_raises w profile_name po bo ppo e :
  value (after_profile_layer profile_name) w = Raise e →
  value (resolve_profile profile_name po bo ppo) w = Raise e.
Proof. intros H. rewrite value_resolve_profile, H. reflexivity. Qed.

(** C5 as worded fails in its parenthesis: with "(from profile)" in
    the environment's provider variable, and the same text as the
    override, the resolved provider is "(from profile)". *)
Lemma sentinel_from_environ_is_resolved :
  ¬ (∀ w profile_name po bo ppo config,
       value (resolve_profile profile_name po bo ppo) w = Ok config →
       config !! "provider" ≠ Some (PStr "(from profile)")).
Proof.
  intros H.
  destruct (value (resolve_profile "(env vars)" "(from profile)" "" "")
              sentinel_in_environ) as [config | e] eqn:Hrun.
  - apply (H _ _ _ _ _ _ Hrun).
    change (field_of (Ok config) "provider" = Some (PStr "(from profile)")).
    rewrite <- Hrun. vm_compute. reflexivity.
  - assert (Hok : field_of
        (value (resolve_profile "(env vars)" "(from profile)" "" "")
           sentinel_in_environ) "provider" ≠ None) by (vm_compute; discriminate).
    rewrite Hrun in Hok. apply Hok. reflexivity.
Qed.

(** C10, as the code has it: a configuration that resolution returns
    has all eight fields and a provider that is never empty.  The
    provider is "AWS S3", or the non-empty value of the environment
    variable, or the non-empty provider of the selected stored
    profile, or a non-empty override other than "(from profile)".
    Over a store whose profiles are objects, resolution returns. *)
Theorem resolved_config_is_complete w profile_name po bo ppo :
  (∀ config,
     value (resolve_profile profile_name po bo ppo) w = Ok config →
     Forall (λ key, is_Some (config !! key)) CONFIG_FIELDS
     ∧ (∃ v, config !! "provider" = Some v ∧ truthy v = true)
     ∧ config !! "provider" ≠ Some (PStr "")
     ∧ config_provenance w profile_name po config)
  ∧ (∀ store,
       holds_store w store →
       profiles_are_objects store →
       ∃ config, value (resolve_profile profile_name po bo ppo) w = Ok config).
Proof.
  split.
  2:{ intros store Hstore Hobj.
      destruct (after_profile_layer_total w store profile_name Hstore Hobj) as [c Hc].
      exists (override_layer po bo ppo c).
      rewrite value_resolve_profile, Hc. reflexivity. }
  intros config. rewrite value_resolve_profile.
  destruct (value (after_profile_layer profile_name) w) as [c |] eqn:Hrun;
    [| discriminate].
  intros [= <-].
  destruct (after_profile_layer_returns _ _ _ Hrun) as (overlay & -> & Hov).
  set (before := dict_update (env_config (environ w)) (truthy_items overlay)) in *.
  assert (Hprov : config_provenance w profile_name po (override_layer po bo ppo before)).
  { unfold config_provenance. rewrite lookup_override_layer_provider.
    destruct (nonempty po && negb (po =? "(from profile)")) eqn:E.
    { apply andb_true_iff in E as [E1 E2].
      apply negb_true_iff, String.eqb_neq in E2. right. right. right. auto. }
    unfold before. rewrite lookup_dict_update, lookup_truthy_items.
    assert (Henv :
      env_config (environ w) !! "provider" = Some (PStr "AWS S3")
      ∨ (∃ s, environ w !! "COMFY_S3_PROVIDER" = Some s ∧ nonempty s = true
              ∧ env_config (environ w) !! "provider" = Some (PStr s))).
    { rewrite env_config_provider.
      destruct (environ w !! "COMFY_S3_PROVIDER") as [s |]; [| left; reflexivity].
      destruct (nonempty s) eqn:Es; [| left; reflexivity].
      right. exists s. auto. }
    destruct (overlay !! "provider") as [v |] eqn:Hv.
    - destruct (truthy v) eqn:Ht.
      + destruct Hov as [-> | (Hsel & store & Hstore & Hs)];
          [rewrite lookup_empty in Hv; discriminate |].
        right. right. left. exists store, overlay, v. auto 10.
      + destruct Henv as [H | H]; [left | right; left]; exact H.
    - destruct Henv as [H | H]; [left | right; left]; exact H. }
  assert (Htruthy : ∃ v, override_layer po bo ppo before !! "provider" = Some v
                         ∧ truthy v = true).
  { destruct Hprov as [H | [(s & _ & Hs & H) | [(store & named & v & _ & _ & _ & _ & Hv & H)
                        | (Hpo & _ & H)]]]; rewrite H; eexists; split; eauto. }
  split; [| split; [exact Htruthy | split; [| exact Hprov]]].
  - eapply Forall_impl; [apply initial_config_fields |].
    intros key Hk. cbn beta in *. apply override_layer_keeps_fields.
    unfold before, env_config. rewrite !lookup_dict_update.
    destruct (truthy_items overlay !! key); [eauto |].
    destruct (truthy_items (from_environ (environ w)) !! key); [eauto | exact Hk].
  - destruct Htruthy as (v & Hv & Ht). rewrite Hv. intros [= ->]. discriminate Ht.
Qed.

Lemma production_store_objects : profiles_are_objects production_store.
Proof.
  intros name v H. unfold production_store in H.
  apply lookup_insert_Some in H as [[_ <-] | [_ H]]; [eexists; reflexivity |].
  rewrite lookup_empty in H. discriminate.
Qed.

Lemma resolved_config_is_complete_witness :
  ∃ config,
    value (resolve_profile "production" "" "mybucket" "") with_production = Ok config
    ∧ Forall (λ key, is_Some (config !! key)) CONFIG_FIELDS
    ∧ config !! "provider" ≠ Some (PStr "").
Proof.
  destruct (resolved_config_is_complete with_production "production" "" "mybucket" "")
    as [Hprops Hreturns].
  destruct (Hreturns production_store eq_refl production_store_objects)
    as [config Hrun].
  destruct (Hprops config Hrun) as (Hall & _ & Hne & _).
  exists config. auto.
Defined.

(** C10 as worded fails in "each layer ... non-sentinel": the
    environment layer and the named-profile layer write the text
    "(from profile)" into the provider when they are given it. *)
Lemma lower_layers_write_sentinel :
  ¬ (∀ w config,
       value env_layer w = Ok config →
       config !! "provider" ≠ Some (PStr "(from profile)"))
  ∧ ¬ (∀ w profile_name config,
         value (after_profile_layer profile_name) w = Ok config →
         config !! "provider" ≠ Some (PStr "(from profile)")).
Proof.
  split; intros H.
  - apply (H sentinel_in_environ (env_config (environ sentinel_in_environ))).
    + unfold value. rewrite run_env_layer. reflexivity.
    + rewrite env_config_provider. reflexivity.
  - destruct (value (after_profile_layer "legacy") sentinel_in_profile)
      as [config | e] eqn:Hrun.
    + apply (H _ _ _ Hrun).
      change (field_of (Ok config) "provider" = Some (PStr "(from profile)")).
      rewrite <- Hrun. vm_compute. reflexivity.
    + assert (Hok : field_of (value (after_profile_layer "legacy") sentinel_in_profile)
                      "provider" ≠ None) by (vm_compute; discriminate).
      rewrite Hrun in Hok. apply Hok. reflexivity.
Qed.

End OverrideLayer.

(** ** Validation *)

Section Validation.

Lemma run_validate_config config w :
  validate_config config w
    = ([],
       if field_empty config "access_key"
       then Raise (ValueError (access_key_message (profiles_path w)))
       else if field_empty config "secret_key"
       then Raise (ValueError secret_key_message)
       else if field_empty config "bucket"
       then Raise (ValueError bucket_message)
       else Ok tt).
Proof.
  unfold validate_config, field_empty.
  destruct (negb (truthy (config_get config "access_key"))).
  { rewrite run_bind, run_get_profiles_path. reflexivity. }
  destruct (negb (truthy (config_get config "secret_key"))); [reflexivity |].
  destruct (negb (truthy (config_get config "bucket"))); reflexivity.
Qed.

Lemma field_empty_ext (config config' : gmap string pyval) key :
  config' !! key = config !! key → field_empty config' key = field_empty config key.
Proof. unfold field_empty, config_get. intros ->. reflexivity. Qed.

Lemma messages_differ path :
  access_key_message path ≠ secret_key_message
  ∧ access_key_message path ≠ bucket_message
  ∧ secret_key_message ≠ bucket_message.
Proof.
  unfold access_key_message, secret_key_message, bucket_message.
  repeat split; intros H; vm_compute in H; discriminate H.
Qed.

(** C3: [validate_config] raises exactly when access_key, secret_key
    or bucket is empty; the error is the one of the first empty field
    in that order, the three errors differ, and with all three
    non-empty the call returns, whatever else the configuration
    holds. *)
Theorem validation_order w config :
  (field_empty config "access_key" = true →
     value (validate_config config) w
       = Raise (ValueError (access_key_message (profiles_path w))))
  ∧ (field_empty config "access_key" = false →
     field_empty config "secret_key" = true →
     value (validate_config config) w = Raise (ValueError secret_key_message))
  ∧ (field_empty config "access_key" = false →
     field_empty config "secret_key" = false →
     field_empty config "bucket" = true →
     value (validate_config config) w = Raise (ValueError bucket_message))
  ∧ (field_empty config "access_key" = false →
     field_empty config "secret_key" = false →
     field_empty config "bucket" = false →
     value (validate_config config) w = Ok tt)
  ∧ ((∃ e, value (validate_config config) w = Raise e)
     ↔ field_empty config "access_key" = true
       ∨ field_empty config "secret_key" = true
       ∨ field_empty config "bucket" = true)
  ∧ (∀ config' : gmap string pyval,
       Forall (λ key, config' !! key = config !! key)
         ["access_key"; "secret_key"; "bucket"] →
       value (validate_config config') w = value (validate_config config) w)
  ∧ access_key_message (profiles_path w) ≠ secret_key_message
  ∧ access_key_message (profiles_path w) ≠ bucket_message
  ∧ secret_key_message ≠ bucket_message
  ∧ events (validate_config config) w = [].
Proof.
  unfold value, events. rewrite run_validate_config. cbn [fst snd].
  split; [intros ->; reflexivity |].
  split; [intros -> ->; reflexivity |].
  split; [intros -> -> ->; reflexivity |].
  split; [intros -> -> ->; reflexivity |].
  split.
  { destruct (field_empty config "access_key"), (field_empty config "secret_key"),
      (field_empty config "bucket"); split;
      try (intros _; eauto; fail);
      try (intros [e He]; discriminate He);
      try (intros [H | [H | H]]; discriminate H). }
  split.
  { intros config' Hagree. rewrite run_validate_config. cbn [snd].
    apply Forall_cons in Hagree as [Ha Hagree].
    apply Forall_cons in Hagree as [Hs Hagree].
    apply Forall_cons in Hagree as [Hb _].
    rewrite (field_empty_ext _ _ _ Ha), (field_empty_ext _ _ _ Hs),
      (field_empty_ext _ _ _ Hb). reflexivity. }
  pose proof (messages_differ (profiles_path w)) as (H1 & H2 & H3).
  auto.
Qed.

Lemma validation_order_witness :
  value (validate_config (config_of "" "" "x")) env_only
    = Raise (ValueError
        (access_key_message "/home/user/.comfyui-cloud-storage/profiles.json"))
  ∧ value (validate_config (config_of "x" "" "")) env_only
    = Raise (ValueError secret_key_message)
  ∧ value (validate_config (config_of "x" "x" "")) env_only
    = Raise (ValueError bucket_message)
  ∧ value (validate_config (config_of "x" "x" "x")) env_only = Ok tt.
Proof.
  split; [| split; [| split]].
  - apply (proj1 (validation_order env_only (config_of "" "" "x"))). reflexivity.
  - apply (proj1 (proj2 (validation_order env_only (config_of "x" "" ""))));
      reflexivity.
  - apply (proj1 (proj2 (proj2 (validation_order env_only (config_of "x" "x" "")))));
      reflexivity.
  - apply (proj1 (proj2 (proj2 (proj2
             (validation_order env_only (config_of "x" "x" "x"))))));
      reflexivity.
Defined.

End Validation.

Section Messages.

Lemma prefix_empty s : String.prefix "" s = true.
Proof. destruct s; reflexivity. Qed.

Lemma prefix_cons a n b s :
  String.prefix (String a n) (String b s)
    = if ascii_dec a b then String.prefix n s else false.
Proof. reflexivity. Qed.

Lemma prefix_app_l n : ∀ a b, String.prefix n a = true → String.prefix n (a ++ b) = true.
Proof.
  induction n as [| x n IH]; intros a b H.
  - apply prefix_empty.
  - destruct a as [| y a]; [discriminate H |].
    change (String y a ++ b) with (String y (a ++ b)).
    rewrite prefix_cons in *.
    destruct (ascii_dec x y); [apply IH, H | discriminate H].
Qed.

Lemma prefix_refl n : String.prefix n n = true.
Proof.
  induction n as [| x n IH]; [reflexivity |].
  rewrite prefix_cons. destruct (ascii_dec x x); [exact IH | congruence].
Qed.

Lemma contains_prefix n h : String.prefix n h = true → contains n h = true.
Proof. destruct h; cbn [contains]; intros ->; reflexivity. Qed.

Lemma contains_app_r n a b : contains n b = true → contains n (a ++ b) = true.
Proof.
  intros H. induction a as [| c a IH]; [exact H |].
  change (String c a ++ b) with (String c (a ++ b)).
  cbn [contains]. rewrite IH. apply orb_true_r.
Qed.

Lemma contains_app_l n a b : contains n a = true → contains n (a ++ b) = true.
Proof.
  induction a as [| c a IH]; intros H.
  - destruct n; [| discriminate H]. apply contains_prefix, prefix_empty.
  - change (String c a ++ b) with (String c (a ++ b)).
    cbn [contains] in *. apply orb_true_iff in H as [H | H].
    + change (String c (a ++ b)) with (String c a ++ b).
      rewrite (prefix_app_l _ _ _ H). reflexivity.
    + rewrite (IH H). apply orb_true_r.
Qed.

(** Whatever the snapshot, the profiles path ends in the file name. *)
Lemma profiles_path_names_file w : contains "profiles.json" (profiles_path w) = true.
Proof.
  assert (Hjoin : ∀ a, contains "profiles.json" (os_path_join a "profiles.json") = true).
  { intros a. unfold os_path_join.
    change (String.prefix "/" "profiles.json") with false. cbn match.
    destruct (negb (nonempty a) || ends_with_slash a).
    - apply contains_app_r. reflexivity.
    - apply contains_app_r, contains_app_r. reflexivity. }
  unfold profiles_path, value, _get_profiles_path. cbn [snd].
  destruct (system_user_directory w); apply Hjoin.
Qed.

Lemma access_key_message_contents path :
  contains "access key" (access_key_message path) = true
  ∧ contains "COMFY_S3_ACCESS_KEY env var" (access_key_message path) = true
  ∧ contains "create a profile in" (access_key_message path) = true
  ∧ contains path (access_key_message path) = true
  ∧ contains "connect a CloudStorageProfile node" (access_key_message path) = true.
Proof.
  unfold access_key_message.
  split; [apply contains_app_l; reflexivity |].
  split; [apply contains_app_r, contains_app_l; reflexivity |].
  split; [apply contains_app_r, contains_app_l; reflexivity |].
  split.
  - apply contains_app_r, contains_app_r, contains_app_l, contains_prefix, prefix_refl.
  - apply contains_app_r, contains_app_r, contains_app_r. reflexivity.
Qed.

(** C4: what [validate_config] raises at each of the three failures.
    Each message names the missing field and its environment variable
    and mentions a profile.  The access_key branch also gives the path
    of the profiles file and the third way, connecting a
    CloudStorageProfile node; the secret_key and bucket branches of
    the same function stop at "or configure a profile" and point at no
    file and no per-call input, short of the three ways the claim
    asks of every message. *)
Theorem validation_messages w config :
  (field_empty config "access_key" = true →
     ∃ msg,
       value (validate_config config) w = Raise (ValueError msg)
       ∧ contains "access key" msg = true
       ∧ contains "COMFY_S3_ACCESS_KEY env var" msg = true
       ∧ contains "create a profile in" msg = true
       ∧ contains (profiles_path w) msg = true
       ∧ contains "profiles.json" msg = true
       ∧ contains "connect a CloudStorageProfile node" msg = true
       ∧ mentions_per_call_input msg = true)
  ∧ (field_empty config "access_key" = false →
     field_empty config "secret_key" = true →
     ∃ msg,
       value (validate_config config) w = Raise (ValueError msg)
       ∧ contains "secret key" msg = true
       ∧ contains "COMFY_S3_SECRET_KEY env var" msg = true
       ∧ contains "or configure a profile." msg = true
       ∧ contains "profiles.json" msg = false
       ∧ mentions_per_call_input msg = false)
  ∧ (field_empty config "access_key" = false →
     field_empty config "secret_key" = false →
     field_empty config "bucket" = true →
     ∃ msg,
       value (validate_config config) w = Raise (ValueError msg)
       ∧ contains "bucket" msg = true
       ∧ contains "COMFY_S3_BUCKET env var" msg = true
       ∧ contains "or configure a profile." msg = true
       ∧ contains "profiles.json" msg = false
       ∧ mentions_per_call_input msg = false).
Proof.
  unfold value. rewrite run_validate_config. cbn [snd].
  split; [| split].
  - intros ->. exists (access_key_message (profiles_path w)).
    destruct (access_key_message_contents (profiles_path w))
      as (H1 & H2 & H3 & H4 & H5).
    split; [reflexivity |]. repeat (split; [assumption |]).
    split.
    { unfold access_key_message.
      apply contains_app_r, contains_app_r, contains_app_l, profiles_path_names_file. }
    split; [assumption |].
    unfold mentions_per_call_input, access_key_message.
    rewrite (contains_app_r "CloudStorageProfile").
    + reflexivity.
    + apply contains_app_r, contains_app_r. reflexivity.
  - intros -> ->. exists secret_key_message. repeat split; reflexivity.
  - intros -> -> ->. exists bucket_message. repeat split; reflexivity.
Qed.

Lemma validation_messages_witness :
  ∃ msg,
    value (validate_config (config_of "x" "" "x")) env_only = Raise (ValueError msg)
    ∧ contains "secret key" msg = true
    ∧ mentions_per_call_input msg = false.
Proof.
  destruct (proj1 (proj2 (validation_messages env_only (config_of "x" "" "x")))
              eq_refl eq_refl)
    as (msg & Hrun & Hname & _ & _ & _ & Hnone).
  exists msg. auto.
Defined.

(** Not every message of [validate_config] mentions a per-call input:
    the one for a missing secret_key does not. *)
Lemma secret_key_message_has_two_ways :
  ¬ (∀ w config msg,
       value (validate_config config) w = Raise (ValueError msg) →
       mentions_per_call_input msg = true).
Proof.
  intros H.
  specialize (H env_only (config_of "x" "" "x") secret_key_message eq_refl).
  vm_compute in H. discriminate H.
Qed.

End Messages.

(** ** The profiles file *)

Section ProfilesFile.

(** A profile stored as a string makes the resolver raise. *)
Example string_profile_raises :
  resolve_profile "broken" "" "" "" string_profile
    = ([FileAccess "/home/user/.comfyui-cloud-storage/profiles.json"],
       Raise (AttributeError "'str' object has no attribute 'items'")).
Proof. vm_compute. reflexivity. Qed.

(** A profiles file that is not JSON counts as an empty store, with a
    warning of its own before the one for the missing profile. *)
Example malformed_file_is_empty_store :
  holds_store malformed_file ∅
  ∧ events (resolve_profile "production" "" "" "") malformed_file
      = [FileAccess "/home/user/.comfyui-cloud-storage/profiles.json";
         LogWarning ("Failed to load cloud storage profiles from "
                     ++ "/home/user/.comfyui-cloud-storage/profiles.json: "
                     ++ "Expecting value: line 1 column 1 (char 0)");
         LogWarning "Cloud storage profile 'production' not found"]
  ∧ field_of (value (resolve_profile "production" "" "" "") malformed_file) "bucket"
      = Some (PStr "envbucket").
Proof. vm_compute. auto. Qed.

(** A missing profiles file is an empty store, silently. *)
Example missing_file_is_empty_store :
  _load_profiles env_only
    = ([FileAccess "/home/user/.comfyui-cloud-storage/profiles.json"], Ok (PDict ∅)).
Proof. reflexivity. Qed.

End ProfilesFile.

(** * More of the code *)

(** ** Text *)

Section Text.

Lemma length_append (a b : string) :
  String.length (a ++ b) = (String.length a + String.length b)%nat.
Proof.
  induction a as [| c a IH]; [reflexivity |].
  change (String c a ++ b) with (String c (a ++ b)).
  cbn [String.length]. rewrite IH. reflexivity.
Qed.

Lemma append_inv_head (a x y : string) : a ++ x = a ++ y → x = y.
Proof.
  induction a as [| c a IH]; [auto |].
  change (String c a ++ x) with (String c (a ++ x)).
  change (String c a ++ y) with (String c (a ++ y)).
  intros [= H]. auto.
Qed.

Lemma append_inv_length (a b x y : string) :
  String.length a = String.length b → a ++ x = b ++ y → a = b ∧ x = y.
Proof.
  revert b. induction a as [| c a IH]; intros [| d b] Hlen H; try discriminate Hlen.
  - split; [reflexivity | exact H].
  - change (String c a ++ x) with (String c (a ++ x)) in H.
    change (String d b ++ y) with (String d (b ++ y)) in H.
    cbn [String.length] in Hlen. injection H as -> H. injection Hlen as Hlen.
    destruct (IH b Hlen H) as [-> ->]. split; reflexivity.
Qed.

Lemma append_inv_tail (x y b : string) : x ++ b = y ++ b → x = y.
Proof.
  intros H. apply (append_inv_length x y b b); [| exact H].
  apply (f_equal String.length) in H. rewrite !length_append in H. lia.
Qed.

Variables old : string.
Hypothesis old_nonempty : nonempty old = true.

Lemma prefix_of_nothing : String.prefix old "" = false.
Proof. destruct old; [discriminate old_nonempty | reflexivity]. Qed.

Lemma replace_from_unfold new c rest :
  replace_from 0 old new (String c rest)
    = if String.prefix old (String c rest)
      then new ++ replace_from (String.length old - 1) old new rest
      else String c (replace_from 0 old new rest).
Proof. reflexivity. Qed.

Lemma count_from_unfold c rest :
  count_from 0 old (String c rest)
    = if String.prefix old (String c rest)
      then S (count_from (String.length old - 1) old rest)
      else count_from 0 old rest.
Proof. reflexivity. Qed.


(** With an occurrence at least one is replaced. *)
Lemma count_with_occurrence s :
  contains old s = true → (0 < count_from 0 old s)%nat.
Proof.
  induction s as [| c rest IH]; cbn [contains].
  - rewrite prefix_of_nothing. discriminate.
  - intros H. rewrite count_from_unfold.
    destruct (String.prefix old (String c rest)); [lia |].
    apply IH, H.
Qed.

(** The length of the result is linear in the length of the
    replacement. *)
Lemma length_replace_from new1 new2 s : ∀ skip,
  (String.length (replace_from skip old new1 s)
     + count_from skip old s * String.length new2
   = String.length (replace_from skip old new2 s)
     + count_from skip old s * String.length new1)%nat.
Proof.
  induction s as [| c rest IH]; intros skip; [reflexivity |].
  destruct skip as [| n]; [| apply IH].
  rewrite !replace_from_unfold, count_from_unfold.
  destruct (String.prefix old (String c rest)).
  - rewrite !length_append. specialize (IH (String.length old - 1)%nat). lia.
  - cbn [String.length]. specialize (IH 0%nat). lia.
Qed.

Lemma replace_from_same_length new1 new2 s : ∀ skip,
  String.length new1 = String.length new2 →
  replace_from skip old new1 s = replace_from skip old new2 s →
  count_from skip old s = 0%nat ∨ new1 = new2.
Proof.
  induction s as [| c rest IH]; intros skip Hlen H; [left; reflexivity |].
  destruct skip as [| n]; [| exact (IH n Hlen H)].
  rewrite !replace_from_unfold in H. rewrite count_from_unfold.
  destruct (String.prefix old (String c rest)).
  - right. exact (proj1 (append_inv_length _ _ _ _ Hlen H)).
  - injection H as H. exact (IH 0%nat Hlen H).
Qed.

(** Two replacements give the same text only if nothing was replaced
    or they are the same replacement. *)
Lemma replace_from_injective new1 new2 s :
  replace_from 0 old new1 s = replace_from 0 old new2 s →
  count_from 0 old s = 0%nat ∨ new1 = new2.
Proof.
  intros H.
  pose proof (length_replace_from new1 new2 s 0) as Hlen. rewrite H in Hlen.
  destruct (count_from 0 old s) as [| n] eqn:Hc; [left; reflexivity |].
  rewrite <- Hc. apply replace_from_same_length; [nia | exact H].
Qed.

End Text.

Lemma str_of_int_injective (m n : Z) : str_of_int m = str_of_int n → m = n.
Proof.
  unfold str_of_int. intros H.
  apply DecimalZ.to_int_inj.
  apply (f_equal NilEmpty.int_of_string) in H.
  rewrite !NilEmpty.isi in H. congruence.
Qed.

(** ** Object keys: [_build_key] *)

Section BuildKey.

Variable text_of : pyval → string.
Variable config : gmap string pyval.
Variables prefix filename ext : string.

Lemma build_key_unfold batch_idx :
  _build_key text_of config prefix filename batch_idx ext
    = fstring_text text_of (config_get_default config "path_prefix" "") ++ prefix
      ++ replace_from 0 "%batch_num%" (str_of_int batch_idx) filename
      ++ "." ++ ext.
Proof. reflexivity. Qed.


(** X2: a filename with [%batch_num%] gives different batch indices
    different keys, whatever the configuration. *)
Theorem build_key_with_batch_num (i j : Z) :
  contains "%batch_num%" filename = true →
  i ≠ j →
  _build_key text_of config prefix filename i ext
    ≠ _build_key text_of config prefix filename j ext.
Proof.
  intros Hocc Hne. rewrite !build_key_unfold. intros H.
  apply append_inv_head, append_inv_head, append_inv_tail in H.
  apply (replace_from_injective "%batch_num%") in H as [H | H].
  - pose proof (count_with_occurrence "%batch_num%" eq_refl _ Hocc). lia.
  - apply Hne, str_of_int_injective, H.
Qed.

End BuildKey.


Lemma build_key_with_batch_num_witness :
  _build_key (λ _, "") (<["path_prefix" := PStr "myproject/"]> ∅)
    "images/" "test_%batch_num%" 2 "jpg"
    = "myproject/images/test_2.jpg"
  ∧ _build_key (λ _, "") (<["path_prefix" := PStr "myproject/"]> ∅)
      "images/" "test_%batch_num%" 2 "jpg"
    ≠ _build_key (λ _, "") (<["path_prefix" := PStr "myproject/"]> ∅)
        "images/" "test_%batch_num%" 3 "jpg".
Proof.
  split; [reflexivity |]. apply build_key_with_batch_num; [reflexivity | lia].
Defined.

(** The key tests of nodes_save.py. *)
Example build_key_tests :
  _build_key (λ _, "") (<["path_prefix" := PStr ""]> ∅) "images/" "test_%batch_num%" 0 "png"
    = "images/test_0.png"
  ∧ _build_key (λ _, "") (<["path_prefix" := PStr "myproject/"]> ∅)
      "images/" "test_%batch_num%" 2 "jpg"
    = "myproject/images/test_2.jpg"
  ∧ _build_key (λ _, "") (<["path_prefix" := PStr ""]> ∅) "" "img_%batch_num%_%batch_num%" 5 "png"
    = "img_5_5.png"
  ∧ _build_key (λ _, "") ∅ "" "%batch_num%batch_num%" 12 "png" = "12batch_num%.png".
Proof. vm_compute. auto. Qed.

(** ** Error texts: [_s3_error_message] *)

Section ErrorMessage.

(** X3: the friendly text of a [ClientError] always carries the
    service's own message, and for a code outside the four it knows
    also the code; any other exception keeps its own text. *)
Theorem s3_error_message_keeps_message (e : s3_failure) :
  match e with
  | ClientError code message =>
      contains message (_s3_error_message e) = true
      ∧ (code ≠ "NoSuchBucket" → code ≠ "AccessDenied" → code ≠ "403" →
         code ≠ "InvalidAccessKeyId" →
         _s3_error_message e = "S3 error [" ++ code ++ "]: " ++ message)
      ∧ (code = "AccessDenied" ∨ code = "403" →
         _s3_error_message e
           = "Access denied. Check credentials and bucket policy. (" ++ message ++ ")")
  | OtherFailure text => _s3_error_message e = text
  end.
Proof.
  destruct e as [code message | text]; [| reflexivity].
  assert (Hself : ∀ s, contains s s = true)
    by (intros s; apply contains_prefix, prefix_refl).
  split; [| split].
  - unfold _s3_error_message.
    destruct (code =? "NoSuchBucket"); [apply contains_app_r, Hself |].
    destruct ((code =? "AccessDenied") || (code =? "403"));
      [apply contains_app_r, contains_app_l, Hself |].
    destruct (code =? "InvalidAccessKeyId");
      [apply contains_app_r, contains_app_l, Hself |].
    apply contains_app_r, contains_app_r, contains_app_r, Hself.
  - intros H1 H2 H3 H4. unfold _s3_error_message.
    apply String.eqb_neq in H1, H2, H3, H4. rewrite H1, H2, H3, H4. reflexivity.
  - intros [-> | ->]; reflexivity.
Qed.

Lemma s3_error_message_keeps_message_witness :
  _s3_error_message (ClientError "InternalError" "oops") = "S3 error [InternalError]: oops"
  ∧ _s3_error_message (ClientError "403" "Forbidden")
    = "Access denied. Check credentials and bucket policy. (Forbidden)".
Proof.
  split.
  - apply (s3_error_message_keeps_message (ClientError "InternalError" "oops"));
      discriminate.
  - apply (s3_error_message_keeps_message (ClientError "403" "Forbidden")).
    right. reflexivity.
Defined.

End ErrorMessage.

(** ** profile.py: the environment and the profiles file *)

Section EnvironmentAndFile.

Lemma foldl_env_step_other env items : ∀ acc key,
  key ∉ items.*2 → foldl (env_step env) acc items !! key = acc !! key.
Proof.
  induction items as [| item items IH]; intros acc key Hnot; [reflexivity |].
  cbn [foldl]. cbn in Hnot. apply not_elem_of_cons in Hnot as [Hne Hnot].
  rewrite (IH _ _ Hnot). apply env_step_lookup_ne. congruence.
Qed.

Lemma from_environ_values env key v :
  from_environ env !! key = Some v → truthy v = true ∧ key ∈ ENV_KEYS.*2.
Proof.
  intros H.
  destruct (decide (key ∈ ENV_KEYS.*2)) as [Hin | Hnot].
  - split; [| exact Hin].
    apply list_elem_of_fmap in Hin as ([env_suffix key'] & -> & Hin).
    apply list_elem_of_In in Hin. cbn [snd] in H.
    rewrite (from_environ_lookup env env_suffix key' Hin) in H. cbn zeta in H.
    destruct (nonempty _) eqn:E; [| discriminate]. injection H as <-. exact E.
  - unfold from_environ in H. rewrite (foldl_env_step_other _ _ _ _ Hnot) in H.
    rewrite lookup_empty in H. discriminate.
Qed.

(** X4: [_profile_from_env] logs nothing, cannot raise, and returns
    exactly the recognised variables that are set to a non-empty
    string, each under its field name and as it is; no other key, and
    no empty value. *)
Theorem profile_from_env_exact w :
  ∃ profile,
    _profile_from_env w = ([], Ok profile)
    ∧ Forall (λ item,
        profile !! item.2
          = match environ w !! (ENV_PREFIX ++ item.1) with
            | Some v => if nonempty v then Some (PStr v) else None
            | None => None
            end) ENV_KEYS
    ∧ dom profile ⊆ list_to_set (ENV_KEYS.*2)
    ∧ map_Forall (λ _ v, truthy v = true) profile.
Proof.
  exists (from_environ (environ w)). split; [apply run_profile_from_env |].
  split; [| split].
  - apply Forall_forall. intros [env_suffix key] Hin. cbn [fst snd].
    apply list_elem_of_In in Hin.
    rewrite (from_environ_lookup _ _ _ Hin). cbn zeta.
    destruct (environ w !! (ENV_PREFIX ++ env_suffix)); reflexivity.
  - intros key Hkey. apply elem_of_dom in Hkey as [v Hv].
    apply elem_of_list_to_set. exact (proj2 (from_environ_values _ _ _ Hv)).
  - intros key v Hv. exact (proj1 (from_environ_values _ _ _ Hv)).
Qed.

(** The first test of profile.py. *)
Example reads_env_vars :
  ∃ profile,
    value _profile_from_env sentinel_in_environ = Ok profile
    ∧ profile !! "provider" = Some (PStr "(from profile)")
    ∧ profile !! "access_key" = Some (PStr "envkey")
    ∧ profile !! "region" = None.
Proof. eexists. split; [reflexivity |]. vm_compute. auto. Qed.

Lemma run_load_profiles w :
  _load_profiles w
    = (FileAccess (profiles_path w)
         :: match profiles_file w with
            | Unreadable err | Malformed err
            | Fails (OSError err) | Fails (JSONDecodeError err) =>
                [LogWarning ("Failed to load cloud storage profiles from "
                             ++ profiles_path w ++ ": " ++ err)]
            | _ => []
            end,
       match profiles_file w with
       | Parsed data => py_get data "profiles" (PDict ∅)
       | Fails (OSError _) | Fails (JSONDecodeError _) => Ok (PDict ∅)
       | Fails e => Raise e
       | _ => Ok (PDict ∅)
       end).
Proof.
  destruct w as [env sys_dir home_dir file].
  destruct file as [| err | err | e | data]; try reflexivity.
  - destruct e; reflexivity.
  - destruct data; reflexivity.
Qed.

(** What the [except] clause of [_load_profiles] catches. *)
Lemma load_profiles_raise w e :
  value _load_profiles w = Raise e →
  (profiles_file w = Fails e
   ∧ (∀ msg, e ≠ OSError msg) ∧ (∀ msg, e ≠ JSONDecodeError msg))
  ∨ (∃ data, profiles_file w = Parsed data
             ∧ (∀ m, data ≠ PDict m) ∧ e = no_attribute data "get").
Proof.
  unfold value. rewrite run_load_profiles. cbn [snd].
  destruct (profiles_file w) as [| err | err | e' | data]; try discriminate.
  - destruct e'; try discriminate; intros [= <-]; left;
      (split; [reflexivity | split; discriminate]).
  - intros H. right. exists data. split; [reflexivity |].
    destruct data; try (injection H as <-; split; [discriminate | reflexivity]).
    discriminate H.
Qed.





End EnvironmentAndFile.

(** ** profile.py: when resolution raises, and the default profile *)

Section Resolution.

(** X8: [resolve_profile] raises only under a name that selects a
    profile, and exactly when [_load_profiles] raises, or returns
    something that is not a dict, or the store holds under that name
    a non-empty value that is not an object.  What it raises is the
    exception that escaped the read of the profiles file, or the
    [AttributeError] of a missing [get] or [items]. *)
Theorem resolve_profile_raises_iff w profile_name po bo ppo :
  ((∃ e, value (resolve_profile profile_name po bo ppo) w = Raise e)
   ↔ selects_profile profile_name = true
     ∧ match value _load_profiles w with
       | Raise _ => True
       | Ok (PDict store) =>
           match store !! profile_name with
           | Some v => truthy v = true ∧ ∀ m, v ≠ PDict m
           | None => False
           end
       | Ok _ => True
       end)
  ∧ (∀ e, value (resolve_profile profile_name po bo ppo) w = Raise e →
       (profiles_file w = Fails e
        ∧ (∀ msg, e ≠ OSError msg) ∧ (∀ msg, e ≠ JSONDecodeError msg))
       ∨ ∃ v attr, e = no_attribute v attr).
Proof.
  rewrite value_resolve_profile, value_after_profile_layer. unfold value at 1 3.
  destruct (selects_profile profile_name) eqn:Hsel.
  2:{ rewrite named_layer_skipped by assumption. cbn.
      split; [split; [intros [e H]; discriminate H | intros [H _]; discriminate H]
             | intros e H; discriminate H]. }
  rewrite (run_named_layer_selected _ _ _ Hsel).
  destruct (value _load_profiles w) as [profiles | e0] eqn:Hload.
  2:{ cbn. split; [split; [auto | eauto] |].
      intros e [= <-].
      destruct (load_profiles_raise w e0 Hload) as [Hf | (data & _ & _ & ->)]; eauto. }
  destruct profiles as [| b | z | f | s | l | store];
    try (cbn; split; [split; [auto | eauto] | intros e [= <-]; eauto]).
  cbn [py_get]. destruct (store !! profile_name) as [v |].
  - destruct (truthy v) eqn:Ht.
    + destruct v as [| b | z | f | s | l | m];
        try (cbn; split;
             [split; [intros _; split; [reflexivity |]; split; [reflexivity | discriminate]
                     | eauto]
             | intros e [= <-]; eauto]).
      cbn. split; [split |].
      * intros [e H]. discriminate H.
      * intros (_ & _ & Hnot). destruct (Hnot m eq_refl).
      * intros e H. discriminate H.
    + cbn. split; [split |].
      * intros [e H]. discriminate H.
      * intros (_ & H & _). discriminate H.
      * intros e H. discriminate H.
  - cbn. split; [split |].
    + intros [e H]. discriminate H.
    + intros [_ []].
    + intros e H. discriminate H.
Qed.

Lemma resolve_profile_raises_iff_witness :
  (∃ e, value (resolve_profile "broken" "" "mybucket" "") string_profile = Raise e)
  ∧ (∃ e, value (resolve_profile "production" "" "" "") undecodable_file = Raise e).
Proof.
  split.
  - apply (proj1 (resolve_profile_raises_iff string_profile "broken" "" "mybucket" "")).
    split; [reflexivity |]. vm_compute. split; [reflexivity | discriminate].
  - apply (proj1 (resolve_profile_raises_iff undecodable_file "production" "" "" "")).
    split; [reflexivity |]. vm_compute. exact I.
Defined.

Lemma initial_config_lookup env_suffix key :
  In (env_suffix, key) ENV_KEYS →
  initial_config !! key
    = Some (PStr (if String.eqb key "provider" then "AWS S3" else "")).
Proof.
  unfold ENV_KEYS. cbn [In]. intros H.
  repeat (destruct H as [H | H]; [injection H as <- <-; reflexivity |]).
  destruct H.
Qed.

Lemma dom_initial_config : dom initial_config = list_to_set CONFIG_FIELDS.
Proof.
  unfold initial_config, CONFIG_FIELDS. rewrite !dom_insert_L, dom_empty_L.
  cbn [list_to_set]. set_solver.
Qed.

(** X9: with no named profile the configuration is a function of the
    environment alone: exactly the eight fields, each the non-empty
    value of its variable, else the default ("AWS S3" for the
    provider, empty otherwise); the profiles file is not looked at
    and nothing is logged. *)
Theorem default_profile_closed_form w :
  ∃ config,
    resolve_default_profile w = ([], Ok config)
    ∧ dom config = list_to_set CONFIG_FIELDS
    ∧ Forall (λ item,
        config !! item.2
          = Some (PStr
              (let initial := if String.eqb item.2 "provider" then "AWS S3" else "" in
               match environ w !! (ENV_PREFIX ++ item.1) with
               | Some v => if nonempty v then v else initial
               | None => initial
               end))) ENV_KEYS
    ∧ (∀ w', environ w' = environ w →
         resolve_default_profile w' = resolve_default_profile w).
Proof.
  assert (Hrun : ∀ u, resolve_default_profile u = ([], Ok (env_config (environ u)))).
  { intros u. unfold resolve_default_profile. rewrite run_resolve_profile.
    rewrite events_after_profile_layer, value_after_profile_layer.
    unfold events, value. rewrite named_layer_skipped by reflexivity. reflexivity. }
  exists (env_config (environ w)). split; [apply Hrun |]. split; [| split].
  - unfold env_config, dict_update. rewrite dom_union_L, dom_initial_config.
    assert (dom (truthy_items (from_environ (environ w))) ⊆ list_to_set CONFIG_FIELDS).
    { intros key Hkey. apply elem_of_dom in Hkey as [v Hv].
      rewrite lookup_truthy_items in Hv.
      destruct (from_environ (environ w) !! key) as [v' |] eqn:E; [| discriminate].
      apply elem_of_list_to_set. exact (proj2 (from_environ_values _ _ _ E)). }
    apply set_eq. intros key. rewrite elem_of_union. split; [intros [Hk | Hk] |]; auto.
  - apply Forall_forall. intros [env_suffix key] Hin. cbn [fst snd].
    apply list_elem_of_In in Hin.
    unfold env_config. rewrite lookup_dict_update, lookup_truthy_items.
    rewrite (from_environ_lookup _ _ _ Hin), (initial_config_lookup _ _ Hin). cbn zeta.
    destruct (environ w !! (ENV_PREFIX ++ env_suffix)) as [v |]; [| reflexivity].
    destruct (nonempty v) eqn:E; [| reflexivity].
    cbn [truthy]. rewrite E. reflexivity.
  - intros w' Henv. rewrite !Hrun, Henv. reflexivity.
Qed.

Lemma default_profile_closed_form_witness :
  resolve_default_profile list_file = resolve_default_profile env_only.
Proof.
  destruct (default_profile_closed_form env_only) as (config & _ & _ & _ & Hsame).
  apply Hsame. reflexivity.
Defined.

Lemma env_config_field_empty env env_suffix key :
  In (env_suffix, key) ENV_KEYS → key ≠ "provider" →
  field_empty (env_config env) key
    = negb (nonempty (match env !! (ENV_PREFIX ++ env_suffix) with
                      | Some v => v | None => "" end)).
Proof.
  intros Hin Hne. unfold field_empty, config_get, env_config.
  rewrite lookup_dict_update, lookup_truthy_items.
  rewrite (from_environ_lookup _ _ _ Hin), (initial_config_lookup _ _ Hin). cbn zeta.
  apply String.eqb_neq in Hne. rewrite Hne.
  destruct (env !! (ENV_PREFIX ++ env_suffix)) as [v |]; [| reflexivity].
  destruct (nonempty v) eqn:E; [| reflexivity].
  cbn [truthy]. rewrite E. cbn [truthy]. rewrite E. reflexivity.
Qed.

(** X10: with no profile connected, validation passes exactly when the
    access key, secret key and bucket variables are all set to
    non-empty strings. *)
Theorem default_profile_validates_iff w :
  ∃ config,
    value (node_config None) w = Ok config
    ∧ (value (validate_config config) w = Ok tt
       ↔ Forall (λ name, ∃ v, environ w !! name = Some v ∧ nonempty v = true)
           ["COMFY_S3_ACCESS_KEY"; "COMFY_S3_SECRET_KEY"; "COMFY_S3_BUCKET"]).
Proof.
  destruct (default_profile_closed_form w) as (config & Hrun & _).
  assert (Hc : config = env_config (environ w)).
  { unfold resolve_default_profile in Hrun. rewrite run_resolve_profile in Hrun.
    rewrite value_after_profile_layer in Hrun. unfold value in Hrun.
    rewrite named_layer_skipped in Hrun by reflexivity. cbn in Hrun. congruence. }
  exists config. split; [unfold value, node_config; rewrite Hrun; reflexivity |].
  unfold value. rewrite run_validate_config. cbn [snd]. subst config.
  rewrite (env_config_field_empty _ "ACCESS_KEY" "access_key") by (cbn; intuition congruence).
  rewrite (env_config_field_empty _ "SECRET_KEY" "secret_key") by (cbn; intuition congruence).
  rewrite (env_config_field_empty _ "BUCKET" "bucket") by (cbn; intuition congruence).
  change (ENV_PREFIX ++ "ACCESS_KEY") with "COMFY_S3_ACCESS_KEY".
  change (ENV_PREFIX ++ "SECRET_KEY") with "COMFY_S3_SECRET_KEY".
  change (ENV_PREFIX ++ "BUCKET") with "COMFY_S3_BUCKET".
  rewrite !Forall_cons, Forall_nil.
  destruct (environ w !! "COMFY_S3_ACCESS_KEY") as [a |],
    (environ w !! "COMFY_S3_SECRET_KEY") as [s |],
    (environ w !! "COMFY_S3_BUCKET") as [b |];
    try destruct (nonempty a) eqn:Ea; try destruct (nonempty s) eqn:Es;
    try destruct (nonempty b) eqn:Eb; cbn;
    (split; [intros H; try discriminate H; eauto 10
            | intros ((x & Hx & Hx') & (y & Hy & Hy') & (z & Hz & Hz') & _);
              try discriminate; try congruence; try reflexivity]).
Qed.

(** X11: in [CloudStorageProfile.execute] no override can stand in for
    a credential: a configuration without access key or secret key
    after the profile layer fails validation whatever the overrides,
    while a non-empty bucket override satisfies the bucket check. *)
Theorem overrides_cannot_supply_credentials w profile_name po bo ppo before :
  value (after_profile_layer profile_name) w = Ok before →
  (field_empty before "access_key" = true →
     value (CloudStorageProfile_execute profile_name po bo ppo) w
       = Raise (ValueError (access_key_message (profiles_path w))))
  ∧ (field_empty before "access_key" = false →
     field_empty before "secret_key" = true →
     value (CloudStorageProfile_execute profile_name po bo ppo) w
       = Raise (ValueError secret_key_message))
  ∧ (field_empty before "access_key" = false →
     field_empty before "secret_key" = false →
     nonempty bo = true →
     ∃ config,
       value (CloudStorageProfile_execute profile_name po bo ppo) w = Ok config
       ∧ config !! "bucket" = Some (PStr bo))
  ∧ (field_empty before "access_key" = false →
     field_empty before "secret_key" = false →
     nonempty bo = false →
     field_empty before "bucket" = true →
     value (CloudStorageProfile_execute profile_name po bo ppo) w
       = Raise (ValueError bucket_message)).
Proof.
  intros Hbefore.
  assert (Hrun : value (CloudStorageProfile_execute profile_name po bo ppo) w
    = match value (validate_config (override_layer po bo ppo before)) w with
      | Ok _ => Ok (override_layer po bo ppo before)
      | Raise e => Raise e
      end).
  { unfold value at 1, CloudStorageProfile_execute.
    rewrite run_bind, run_resolve_profile, Hbefore. cbn [res_map res_bind snd].
    rewrite run_bind. unfold value.
    destruct (validate_config _ w) as [t [[] | e]]; reflexivity. }
  rewrite Hrun. unfold value. rewrite run_validate_config. cbn [snd].
  assert (Ha : field_empty (override_layer po bo ppo before) "access_key"
               = field_empty before "access_key").
  { apply field_empty_ext, lookup_override_layer_frame; discriminate. }
  assert (Hs : field_empty (override_layer po bo ppo before) "secret_key"
               = field_empty before "secret_key").
  { apply field_empty_ext, lookup_override_layer_frame; discriminate. }
  assert (Hb : field_empty (override_layer po bo ppo before) "bucket"
               = if nonempty bo then false else field_empty before "bucket").
  { unfold field_empty, config_get. rewrite lookup_override_layer_bucket.
    destruct (nonempty bo) eqn:E; [cbn; rewrite E |]; reflexivity. }
  rewrite Ha, Hs, Hb.
  split; [intros ->; reflexivity |].
  split; [intros -> ->; reflexivity |].
  split.
  - intros -> -> Hbo. rewrite Hbo. eexists. split; [reflexivity |].
    rewrite lookup_override_layer_bucket, Hbo. reflexivity.
  - intros -> -> -> ->. reflexivity.
Qed.

Lemma overrides_cannot_supply_credentials_witness :
  value (CloudStorageProfile_execute "(env vars)" "" "mybucket" "") sentinel_in_profile
    ≠ Raise (ValueError bucket_message)
  ∧ value (CloudStorageProfile_execute "legacy" "Backblaze B2" "mybucket" "outputs/")
      {| environ := ∅; system_user_directory := None; home := "/home/user";
         profiles_file := Missing |}
    = Raise (ValueError (access_key_message "/home/user/.comfyui-cloud-storage/profiles.json")).
Proof.
  split.
  - assert (Hbefore : value (after_profile_layer "(env vars)") sentinel_in_profile
                      = Ok (env_config test_environ)) by reflexivity.
    destruct (overrides_cannot_supply_credentials sentinel_in_profile "(env vars)"
                "" "mybucket" "" _ Hbefore)
      as (_ & _ & Hok & _).
    destruct (Hok eq_refl eq_refl eq_refl) as (config & -> & _). discriminate.
  - assert (Hbefore : value (after_profile_layer "legacy")
                        {| environ := ∅; system_user_directory := None;
                           home := "/home/user"; profiles_file := Missing |}
                      = Ok (env_config ∅)) by reflexivity.
    apply (overrides_cannot_supply_credentials _ "legacy" "Backblaze B2" "mybucket"
             "outputs/" _ Hbefore).
    reflexivity.
Defined.

End Resolution.

(** ** providers.py: what the client factory hands to boto3 *)

Section ClientFactory.

Lemma registry_entries name preset :
  dict_get PROVIDERS name = Some preset →
  force_path_style preset = String.eqb name "MinIO"
  ∧ (endpoint_template preset = ""
     ∧ (name = "AWS S3" ∨ name = "Custom")
     ∨ (∃ rest, endpoint_template preset = String "h" rest)
       ∧ name ≠ "AWS S3" ∧ name ≠ "Custom").
Proof.
  intros H. apply dict_get_In in H. revert H.
  unfold PROVIDERS. cbn [In]. intros H.
  repeat (destruct H as [H | H];
    [injection H as <- <-; split; [reflexivity |];
     first [ left; split; [reflexivity | auto]
           | right; split; [eexists; reflexivity | split; discriminate] ] |]).
  destruct H.
Qed.

Lemma substituted_template_nonempty rest region account_id :
  nonempty (substitute_placeholders (String "h" rest) region account_id) = true.
Proof.
  unfold substitute_placeholders. rewrite substitute_text by discriminate. reflexivity.
Qed.

(** X12: for any six strings nothing of [create_s3_client] raises
    between its imports and its last statement: once boto3 and
    botocore are imported it calls [boto3.client], and returns or
    raises what that call does.  In the arguments of the call the
    credentials are as given, the signature, retry and user-agent
    settings are fixed, path-style addressing is chosen for the
    provider "MinIO" and no other, and [endpoint_url] is left out
    exactly when no explicit endpoint is given and the provider is
    "AWS S3", "Custom" or a name outside the registry. *)
Theorem client_factory_contract {C} (library : res (client_kwargs → res C))
    provider access_key secret_key region explicit account_id :
  ∃ kwargs,
    create_s3_client provider access_key secret_key region explicit account_id = Ok kwargs
    ∧ create_s3_client_call library provider access_key secret_key region explicit account_id
        = res_bind library (λ boto3_client, boto3_client kwargs)
    ∧ aws_access_key_id kwargs = access_key
    ∧ aws_secret_access_key kwargs = secret_key
    ∧ signature_version kwargs = "s3v4"
    ∧ retries_max_attempts kwargs = 3%Z
    ∧ retries_mode kwargs = "adaptive"
    ∧ user_agent_extra kwargs = "b2ai-comfyui"
    ∧ (addressing_style kwargs = "path" ↔ provider = "MinIO")
    ∧ (addressing_style kwargs = "auto" ↔ provider ≠ "MinIO")
    ∧ (endpoint_url kwargs = None
       ↔ explicit = ""
         ∧ (provider = "AWS S3" ∨ provider = "Custom" ∨ ¬ In provider PROVIDER_NAMES))
    ∧ (nonempty explicit = true → endpoint_url kwargs = Some explicit).
Proof.
  destruct (create_s3_client_endpoint provider access_key secret_key region explicit account_id)
    as (preset & endpoint & kwargs & Hp & He & Hc & Hurl & _ & Hstyle).
  exists kwargs. split; [exact Hc |].
  split; [unfold create_s3_client_call; rewrite Hc; destruct library; reflexivity |].
  assert (Hfields : aws_access_key_id kwargs = access_key
                    ∧ aws_secret_access_key kwargs = secret_key
                    ∧ signature_version kwargs = "s3v4"
                    ∧ retries_max_attempts kwargs = 3%Z
                    ∧ retries_mode kwargs = "adaptive"
                    ∧ user_agent_extra kwargs = "b2ai-comfyui").
  { revert Hc. unfold create_s3_client. rewrite Hp. cbn [res_bind]. rewrite He.
    cbn [res_bind]. intros [= <-]. cbn. auto 10. }
  destruct Hfields as (-> & -> & -> & -> & -> & ->).
  do 6 (split; [reflexivity |]).
  rewrite lookup_preset_get in Hp. unfold dict_get_default in Hp.
  assert (Hnames : ¬ In provider PROVIDER_NAMES ↔ dict_get PROVIDERS provider = None).
  { unfold PROVIDER_NAMES. rewrite in_map_iff. split.
    - intros Hno. destruct (dict_get PROVIDERS provider) as [p |] eqn:E; [| reflexivity].
      destruct Hno. exists (provider, p). split; [reflexivity |].
      apply dict_get_In, E.
    - intros Hnone [[name p] [Hname Hin]]. cbn in Hname. subst name.
      exact (dict_get_None _ _ Hnone p Hin). }
  assert (Hpath : force_path_style preset = String.eqb provider "MinIO").
  { destruct (dict_get PROVIDERS provider) as [p |] eqn:E; injection Hp as <-.
    - apply (registry_entries _ _ E).
    - destruct (String.eqb_spec provider "MinIO") as [-> | _]; [discriminate E | reflexivity]. }
  rewrite Hstyle, Hpath.
  split; [| split; [| split]].
  - destruct (String.eqb_spec provider "MinIO");
      split; [auto | auto | discriminate | contradiction].
  - destruct (String.eqb_spec provider "MinIO");
      split; [discriminate | contradiction | auto | auto].
  - rewrite Hurl. revert He. unfold effective_endpoint.
    destruct explicit as [| c explicit']; cbn [nonempty].
    2:{ intros [= <-]. cbn. split; [discriminate | intros [H _]; discriminate H]. }
    destruct (dict_get PROVIDERS provider) as [p |] eqn:E; injection Hp as <-.
    + destruct (registry_entries _ _ E) as [_ [[Ht Hn] | [[rest Ht] [Hn Hn']]]];
        rewrite Ht; cbn [nonempty].
      * intros [= <-]. cbn. split; [intros _; split; [reflexivity | tauto] | reflexivity].
      * rewrite format_only_placeholders
          by (rewrite <- Ht; apply (registry_templates provider p), dict_get_In, E).
        intros [= <-]. rewrite substituted_template_nonempty.
        split; [discriminate |].
        intros [_ [H | [H | H]]]; [contradiction | contradiction |].
        apply Hnames in H. congruence.
    + cbn. intros [= <-]. cbn.
      split; [intros _; split; [reflexivity |]; right; right; apply Hnames; reflexivity | reflexivity].
  - intros Hne. rewrite Hurl. revert He. unfold effective_endpoint. rewrite Hne.
    intros [= <-]. rewrite Hne. reflexivity.
Qed.

Lemma client_factory_contract_witness :
  ∃ kwargs,
    create_s3_client_call (C := unit) (Ok (λ _, Raise (ValueError "Invalid endpoint")))
      "Wasabi" "AKID" "SECRET" "" "https://gateway.example.com" ""
      = Raise (ValueError "Invalid endpoint")
    ∧ create_s3_client "Wasabi" "AKID" "SECRET" "" "https://gateway.example.com" "" = Ok kwargs
    ∧ endpoint_url kwargs = Some "https://gateway.example.com".
Proof.
  destruct (client_factory_contract (C := unit)
              (Ok (λ _, Raise (ValueError "Invalid endpoint")))
              "Wasabi" "AKID" "SECRET" "" "https://gateway.example.com" "")
    as (kwargs & Hc & Hcall & _ & _ & _ & _ & _ & _ & _ & _ & _ & Hurl).
  exists kwargs. split; [exact Hcall |]. split; [exact Hc | apply Hurl; reflexivity].
Defined.

(** X13: the account id reaches the client of "Cloudflare R2" only:
    for every other provider name, in or out of the registry, two
    calls that differ in the account id alone configure the same
    client. *)
Theorem account_id_only_for_r2 provider access_key secret_key region explicit a a' :
  provider ≠ "Cloudflare R2" →
  create_s3_client provider access_key secret_key region explicit a
    = create_s3_client provider access_key secret_key region explicit a'.
Proof.
  intros Hne. unfold create_s3_client. rewrite lookup_preset_get. cbn [res_bind].
  unfold dict_get_default.
  assert (He : effective_endpoint
                 (match dict_get PROVIDERS provider with
                  | Some v => v | None => custom_preset end) explicit region a
             = effective_endpoint
                 (match dict_get PROVIDERS provider with
                  | Some v => v | None => custom_preset end) explicit region a').
  { destruct (dict_get PROVIDERS provider) as [p |] eqn:E; [| reflexivity].
    apply dict_get_In in E. revert E. unfold PROVIDERS. cbn [In]. intros H.
    unfold effective_endpoint. destruct (nonempty explicit); [reflexivity |].
    repeat (destruct H as [H | H];
      [injection H as <- <-; first [reflexivity | contradiction] |]).
    destruct H. }
  rewrite He. reflexivity.
Qed.

Lemma account_id_only_for_r2_witness :
  create_s3_client "Backblaze B2" "AKID" "SECRET" "" "" "abc123"
    = create_s3_client "Backblaze B2" "AKID" "SECRET" "" "" "".
Proof. apply account_id_only_for_r2. discriminate. Defined.

(** For "Cloudflare R2" the account id is the host's first label. *)
Example r2_endpoint_has_account_id :
  res_map endpoint_url (create_s3_client "Cloudflare R2" "AKID" "SECRET" "" "" "abc123")
    = Ok (Some "https://abc123.r2.cloudflarestorage.com").
Proof. reflexivity. Qed.

End ClientFactory.

(** ** The nodes: from the profile to the client *)

Section Prelude.

Lemma run_resolve_default_profile w :
  resolve_default_profile w = ([], Ok (env_config (environ w))).
Proof.
  unfold resolve_default_profile. rewrite run_resolve_profile.
  rewrite events_after_profile_layer, value_after_profile_layer.
  unfold events, value. rewrite named_layer_skipped by reflexivity. reflexivity.
Qed.

Lemma env_config_has_field env key :
  key ∈ CONFIG_FIELDS → is_Some (env_config env !! key).
Proof.
  intros Hk. unfold env_config. rewrite lookup_dict_update.
  pose proof (proj1 (Forall_forall _ _) initial_config_fields key Hk) as [v ->].
  destruct (truthy_items (from_environ env) !! key); eauto.
Qed.

Lemma run_node_config profile w :
  node_config profile w = ([], Ok (chosen_config profile w)).
Proof.
  unfold node_config, chosen_config.
  destruct profile as [config |]; [destruct (truthy (PDict config)) |];
    first [reflexivity | apply run_resolve_default_profile].
Qed.

Lemma validated_has_bucket config w :
  value (validate_config config) w = Ok tt → is_Some (config !! "bucket").
Proof.
  unfold value. rewrite run_validate_config. cbn [snd].
  destruct (field_empty config "access_key"); [discriminate |].
  destruct (field_empty config "secret_key"); [discriminate |].
  destruct (field_empty config "bucket") eqn:E; [discriminate |].
  intros _. unfold field_empty, config_get in E.
  destruct (config !! "bucket"); [eauto | discriminate E].
Qed.

Lemma not_a_parameter config key :
  is_Some (config !! key) →
  key ∉ create_s3_client_parameters.*1 →
  key ∈ unexpected_keywords config.
Proof.
  intros Hk Hno. unfold unexpected_keywords.
  apply elem_of_difference. split; [apply elem_of_dom, Hk |].
  rewrite elem_of_list_to_set. exact Hno.
Qed.

Lemma bucket_is_no_parameter : "bucket" ∉ create_s3_client_parameters.*1.
Proof. cbn. rewrite !elem_of_cons, elem_of_nil. intuition discriminate. Qed.

Lemma path_prefix_is_no_parameter : "path_prefix" ∉ create_s3_client_parameters.*1.
Proof. cbn. rewrite !elem_of_cons, elem_of_nil. intuition discriminate. Qed.

Lemma create_s3_client_with_unexpected config key :
  key ∈ unexpected_keywords config →
  create_s3_client_with config
    = Raised (UnexpectedKeyword "create_s3_client" (unexpected_keywords config)).
Proof.
  intros Hk. unfold create_s3_client_with. fold (unexpected_keywords config).
  destruct (decide (unexpected_keywords config = ∅)) as [E | _]; [| reflexivity].
  rewrite E in Hk. apply not_elem_of_empty in Hk. destruct Hk.
Qed.

Lemma run_connect profile w :
  connect profile w
    = ([], Raised
             match value (validate_config (chosen_config profile w)) w with
             | Raise e => Exn e
             | Ok _ =>
                 UnexpectedKeyword "create_s3_client"
                   (unexpected_keywords (chosen_config profile w))
             end).
Proof.
  unfold connect, mbind, N_bind, nbind, of_M. rewrite run_node_config.
  pose proof (validated_has_bucket (chosen_config profile w) w) as Hb.
  unfold value in *. rewrite run_validate_config in *. cbn [snd] in *.
  destruct (field_empty (chosen_config profile w) "access_key"); [reflexivity |].
  destruct (field_empty (chosen_config profile w) "secret_key"); [reflexivity |].
  destruct (field_empty (chosen_config profile w) "bucket"); [reflexivity |].
  unfold of_outcome.
  rewrite (create_s3_client_with_unexpected _ "bucket")
    by (apply not_a_parameter; [apply Hb; reflexivity | apply bucket_is_no_parameter]).
  reflexivity.
Qed.

(** X14: the four statements every [execute] of the save, load and
    browse nodes starts with never get past the third.  They raise
    the [ValueError] of [validate_config], or, for a configuration
    that passes it, the [TypeError] of the call to
    [create_s3_client]: the configuration is unpacked into keyword
    arguments, and "bucket", which validation requires, is not one of
    its parameters.  No request is sent and nothing is logged. *)
Theorem connect_never_returns profile w :
  ∃ e,
    connect profile w = ([], Raised e)
    ∧ match value (validate_config (chosen_config profile w)) w with
      | Raise failure => e = Exn failure ∧ ∃ message, failure = ValueError message
      | Ok _ =>
          ∃ keywords,
            e = UnexpectedKeyword "create_s3_client" keywords
            ∧ "bucket" ∈ keywords
            ∧ ∀ key, key ∈ keywords
                ↔ is_Some (chosen_config profile w !! key)
                  ∧ key ∉ ["provider"; "access_key"; "secret_key"; "region";
                           "endpoint_url"; "account_id"]
      end.
Proof.
  rewrite run_connect. eexists. split; [reflexivity |].
  pose proof (validated_has_bucket (chosen_config profile w) w) as Hb.
  unfold value in *. rewrite run_validate_config in *. cbn [snd] in *.
  destruct (field_empty (chosen_config profile w) "access_key"); [eauto |].
  destruct (field_empty (chosen_config profile w) "secret_key"); [eauto |].
  destruct (field_empty (chosen_config profile w) "bucket"); [eauto |].
  eexists. split; [reflexivity |]. split.
  - apply not_a_parameter; [apply Hb; reflexivity | apply bucket_is_no_parameter].
  - intros key. unfold unexpected_keywords.
    rewrite elem_of_difference, elem_of_dom, elem_of_list_to_set. reflexivity.
Qed.

(** With the variables of the test suite set, the call is refused
    for the two fields that are not parameters. *)
Example connect_with_env_vars :
  connect None env_only
    = ([], Raised (UnexpectedKeyword "create_s3_client" {["bucket"; "path_prefix"]})).
Proof.
  rewrite run_connect. reflexivity.
Qed.

Lemma resolved_has_field w profile_name po bo ppo config key :
  value (resolve_profile profile_name po bo ppo) w = Ok config →
  key ∈ CONFIG_FIELDS → is_Some (config !! key).
Proof.
  rewrite value_resolve_profile.
  destruct (value (after_profile_layer profile_name) w) as [before |] eqn:E; [| discriminate].
  intros [= <-] Hk. apply override_layer_keeps_fields.
  destruct (after_profile_layer_returns _ _ _ E) as (overlay & -> & _).
  rewrite lookup_dict_update.
  destruct (env_config_has_field (environ w) key Hk) as [v ->].
  destruct (truthy_items overlay !! key); eauto.
Qed.

(** X15: what [CloudStorageProfile.execute] returns is refused by every
    node it is connected to: the profile passes validation there
    too, wherever that node runs, and the call to
    [create_s3_client] then raises the [TypeError] on its "bucket"
    and "path_prefix" entries. *)
Theorem profile_output_is_refused w profile_name po bo ppo config :
  value (CloudStorageProfile_execute profile_name po bo ppo) w = Ok config →
  ∀ w', ∃ keywords,
    connect (Some config) w'
      = ([], Raised (UnexpectedKeyword "create_s3_client" keywords))
    ∧ "bucket" ∈ keywords ∧ "path_prefix" ∈ keywords.
Proof.
  unfold value at 1, CloudStorageProfile_execute. rewrite run_bind.
  destruct (resolve_profile profile_name po bo ppo w) as [t [c | e]] eqn:Hr;
    cbn [res_bind snd]; [| discriminate].
  rewrite run_bind, run_validate_config. cbn [snd].
  assert (Hfields : ∀ key, key ∈ CONFIG_FIELDS → is_Some (c !! key)).
  { intros key. apply (resolved_has_field w profile_name po bo ppo).
    unfold value. rewrite Hr. reflexivity. }
  destruct (field_empty c "access_key") eqn:Ha; [discriminate |].
  destruct (field_empty c "secret_key") eqn:Hs; [discriminate |].
  destruct (field_empty c "bucket") eqn:Hb; [discriminate |].
  cbn. intros [= <-] w'.
  assert (Hdict : truthy (PDict c) = true).
  { cbn. apply negb_true_iff, bool_decide_eq_false. intros Hdom.
    destruct (Hfields "bucket") as [v Hv]; [unfold CONFIG_FIELDS; repeat constructor |].
    apply (elem_of_dom_2 (D := gset string)) in Hv. rewrite Hdom in Hv.
    apply not_elem_of_empty in Hv. exact Hv. }
  exists (unexpected_keywords c). rewrite run_connect.
  unfold chosen_config. rewrite Hdict.
  unfold value. rewrite run_validate_config. cbn [snd]. rewrite Ha, Hs, Hb.
  split; [reflexivity |].
  split; apply not_a_parameter;
    first [ apply Hfields; unfold CONFIG_FIELDS; repeat constructor
          | apply bucket_is_no_parameter | apply path_prefix_is_no_parameter ].
Qed.

Lemma profile_output_is_refused_witness :
  ∃ config keywords,
    value (CloudStorageProfile_execute "production" "" "" "") with_production = Ok config
    ∧ connect (Some config) env_only
        = ([], Raised (UnexpectedKeyword "create_s3_client" keywords))
    ∧ "bucket" ∈ keywords ∧ "path_prefix" ∈ keywords.
Proof.
  assert (∃ config,
    value (CloudStorageProfile_execute "production" "" "" "") with_production = Ok config)
    as [config Hconfig] by (eexists; reflexivity).
  destruct (profile_output_is_refused with_production "production" "" "" "" config
              Hconfig env_only) as (keywords & Hrun & Hkeys).
  exists config, keywords. auto.
Defined.

End Prelude.

(** ** nodes_load.py and nodes_browse.py: what follows the client *)

Section AfterTheClient.

Variable s3 : service.

Lemma keyword_argument_text config name :
  map_Forall (λ _ v, ∃ s, v = PStr s) config →
  name ∈ create_s3_client_parameters.*1 →
  is_Some (keyword_argument config name).
Proof.
  intros Htext Hname. unfold keyword_argument.
  destruct (config !! name) as [v |] eqn:E.
  - destruct (Htext _ _ E) as [s ->]. eauto.
  - revert Hname. cbn. rewrite !elem_of_cons, elem_of_nil.
    intros [-> | [-> | [-> | [-> | [-> | [-> | []]]]]]]; eexists; reflexivity.
Qed.

(** X16: [fingerprint_inputs] returns the empty string, whatever the
    object's ETag is, and asks the service nothing.  With "bucket" in
    the configuration the call to [create_s3_client] raises the
    [TypeError] of an unexpected keyword; without it, the lookup of
    the bucket raises [KeyError]; either is swallowed by the
    [except Exception]. *)
Theorem fingerprint_is_always_empty key profile w :
  (∀ config, profile = Some config →
     is_Some (config !! "bucket") ∨ map_Forall (λ _ v, ∃ s, v = PStr s) config) →
  fingerprint_inputs s3 key profile w = ([], Returned "").
Proof.
  intros Hprofile.
  unfold fingerprint_inputs, except_exception, mbind, N_bind, nbind, of_M.
  rewrite run_node_config. unfold of_outcome.
  destruct (decide (unexpected_keywords (chosen_config profile w) = ∅)) as [Hnone | Hsome].
  2:{ unfold create_s3_client_with.
      destruct (decide (unexpected_keywords (chosen_config profile w) = ∅));
        [contradiction | reflexivity]. }
  assert (Hno : ∀ key', key' ∉ create_s3_client_parameters.*1 →
                  chosen_config profile w !! key' = None).
  { intros key' Hk. destruct (chosen_config profile w !! key') as [v |] eqn:E; [| reflexivity].
    assert (key' ∈ unexpected_keywords (chosen_config profile w))
      by (apply not_a_parameter; [rewrite E; eauto | exact Hk]).
    rewrite Hnone in H. apply not_elem_of_empty in H. destruct H. }
  pose proof (Hno "bucket" bucket_is_no_parameter) as Hbucket.
  pose proof (Hno "path_prefix" path_prefix_is_no_parameter) as Hprefix.
  assert (Htext : map_Forall (λ _ v, ∃ s, v = PStr s) (chosen_config profile w)).
  { revert Hbucket. unfold chosen_config.
    assert (Henv : is_Some (env_config (environ w) !! "bucket"))
      by (apply env_config_has_field; unfold CONFIG_FIELDS; repeat constructor).
    destruct profile as [config |];
      [destruct (truthy (PDict config)) |];
      try (intros Hb; rewrite Hb in Henv; destruct Henv as [? [=]]).
    intros Hb. destruct (Hprofile config eq_refl) as [[v Hv] | Ht]; [congruence | exact Ht]. }
  unfold create_s3_client_with.
  destruct (decide (unexpected_keywords (chosen_config profile w) = ∅)); [| contradiction].
  destruct (keyword_argument_text _ "provider" Htext) as [provider ->]; [cbn; repeat constructor |].
  destruct (keyword_argument_text _ "access_key" Htext) as [access_key ->]; [cbn; repeat constructor |].
  destruct (keyword_argument_text _ "secret_key" Htext) as [secret_key ->]; [cbn; repeat constructor |].
  destruct (keyword_argument_text _ "region" Htext) as [region ->]; [cbn; repeat constructor |].
  destruct (keyword_argument_text _ "endpoint_url" Htext) as [explicit ->]; [cbn; repeat constructor |].
  destruct (keyword_argument_text _ "account_id" Htext) as [account_id ->]; [cbn; repeat constructor |].
  destruct (create_s3_client_endpoint provider access_key secret_key region explicit account_id)
    as (_ & _ & kwargs & _ & _ & -> & _).
  unfold config_get_default, config_getitem. rewrite Hprefix, Hbucket. reflexivity.
Qed.

(** X17: [GeneratePresignedURL.execute] never returns a URL and never
    reaches [generate_presigned_url]: whatever the key, the expiry and
    the service, it raises what the first statements raise, before any
    request. *)
Theorem presigned_url_is_never_requested key expires_hours profile w :
  ∃ e,
    GeneratePresignedURL_execute s3 key expires_hours profile w = ([], Raised e)
    ∧ connect profile w = ([], Raised e)
    ∧ ((∃ message, e = Exn (ValueError message))
       ∨ (∃ keywords, e = UnexpectedKeyword "create_s3_client" keywords
                      ∧ "bucket" ∈ keywords)).
Proof.
  unfold GeneratePresignedURL_execute, mbind, N_bind, nbind.
  rewrite run_connect. eexists. split; [reflexivity |]. split; [reflexivity |].
  pose proof (validated_has_bucket (chosen_config profile w) w) as Hb.
  unfold value in *. rewrite run_validate_config in *. cbn [snd] in *.
  destruct (field_empty (chosen_config profile w) "access_key"); [eauto |].
  destruct (field_empty (chosen_config profile w) "secret_key"); [eauto |].
  destruct (field_empty (chosen_config profile w) "bucket"); [eauto |].
  right. eexists. split; [reflexivity |].
  apply not_a_parameter; [apply Hb; reflexivity | apply bucket_is_no_parameter].
Qed.

End AfterTheClient.

Lemma fingerprint_is_always_empty_witness :
  fingerprint_inputs
    {| head_object := λ _ _ _, Returned {| ETag := Some "5d41402abc4b2a76" |};
       generate_presigned_url := λ _ _ _ _, NotFollowed |}
    "inputs/photo.png" None env_only
    = ([], Returned "")
  ∧ fingerprint_inputs
      {| head_object := λ _ _ _, Returned {| ETag := Some "5d41402abc4b2a76" |};
         generate_presigned_url := λ _ _ _ _, NotFollowed |}
      "inputs/photo.png" (Some (<["access_key" := PStr "AKID"]> ∅)) env_only
    = ([], Returned "").
Proof.
  split; apply fingerprint_is_always_empty.
  - intros config [=].
  - intros config [= <-]. right.
    apply map_Forall_insert_2; [eauto | apply map_Forall_empty].
Defined.
